(** * smartfile: a shallow embedding of the SmartFile REST client

    The development follows the two Python 2 modules of the package:
    [smartfile/errors.py] (the exception classes) and
    [smartfile/__init__.py] (URL generation, the CRUD primitives, the
    path endpoints with their poll loop, and credential lookup).

    Python values are an inductive type, exceptions are a [result] type,
    and the HTTP session, the process environment and the local file
    system are threaded through a small state-and-error monad whose state
    records every request sent, every sleep and every file written. *)

From Stdlib Require Import ZArith List String Ascii Bool Lia DecimalString.
From stdpp Require Import gmap strings.
From Equations Require Import Equations.
Import ListNotations.

Set Warnings "-register-all".

(** ** Python values and the builtins the client uses *)

Module Py.

(** The values that reach the client: arguments of the public methods and
    decoded JSON documents.  The arguments' strings are Python 2 byte
    strings; the strings of a JSON document are [unicode] objects, whose
    text [ResponseError.__str__] has to encode.  JSON numbers are
    integers. *)
Inductive PyVal : Type :=
| PNone
| PBool (b : bool)
| PInt (n : Z)
| PStr (s : string)
| PList (items : list PyVal)
| PDict (items : list (string * PyVal)).

(** [s.startswith(p)] *)
Fixpoint startswith (s p : string) {struct p} : bool :=
  match p, s with
  | EmptyString, _ => true
  | String _ _, EmptyString => false
  | String b p', String a s' => Ascii.eqb a b && startswith s' p'
  end.

(** [s.endswith(p)]: some suffix of [s] is [p]. *)
Fixpoint endswith (s p : string) : bool :=
  String.eqb s p ||
  match s with
  | EmptyString => false
  | String _ s' => endswith s' p
  end.

(** The slice [s[1:]]. *)
Definition tail1 (s : string) : string :=
  match s with
  | EmptyString => EmptyString
  | String _ s' => s'
  end.

(** [needle in hay] for two strings. *)
Fixpoint str_contains (hay needle : string) : bool :=
  startswith hay needle ||
  match hay with
  | EmptyString => false
  | String _ hay' => str_contains hay' needle
  end.

(** [v == s] and [v != s] against a string literal. *)
Definition eq_str (v : PyVal) (s : string) : bool :=
  match v with
  | PStr t => String.eqb t s
  | _ => false
  end.

Definition ne_str (v : PyVal) (s : string) : bool := negb (eq_str v s).

(** [v is None] *)
Definition is_none (v : PyVal) : bool :=
  match v with
  | PNone => true
  | _ => false
  end.

(** Truth value of an object, as [not v] tests it. *)
Definition truthy (v : PyVal) : bool :=
  match v with
  | PNone => false
  | PBool b => b
  | PInt n => negb (n =? 0)%Z
  | PStr s => negb (String.eqb s EmptyString)
  | PList l => match l with [] => false | _ :: _ => true end
  | PDict d => match d with [] => false | _ :: _ => true end
  end.

(** Every character of [s] is an ASCII character (below 128).  In a
    string that comes out of a JSON document, which Python 2 holds as a
    [unicode] object, any other character stands for a non-ASCII one. *)
Fixpoint is_ascii (s : string) : bool :=
  match s with
  | EmptyString => true
  | String (Ascii _ _ _ _ _ _ _ b7) s' => negb b7 && is_ascii s'
  end.

(** Decimal text of an integer, as [format] prints it. *)
Definition str_of_int (n : Z) : string := NilZero.string_of_int (Z.to_int n).

(** Text of a list or of a dict.  Python prints a dict in hash order and
    its strings in [repr] form; the client never looks at that text, so
    it is left to the instance. *)
Class Repr := repr_container : PyVal -> string.

(** What [{0}] in [str.format] prints for a value. *)
Definition format `{Repr} (v : PyVal) : string :=
  match v with
  | PNone => "None"
  | PBool true => "True"
  | PBool false => "False"
  | PInt n => str_of_int n
  | PStr s => s
  | PList _ | PDict _ => repr_container v
  end.

(** First binding of a key among the items of a dict. *)
Fixpoint assoc (k : string) (d : list (string * PyVal)) : option PyVal :=
  match d with
  | [] => None
  | (k', v) :: d' => if String.eqb k k' then Some v else assoc k d'
  end.

End Py.
Export Py.

(** An instance for closed examples, none of which prints a container. *)
#[export] Instance bracket_repr : Repr :=
  fun v => match v with PDict _ => "{...}" | _ => "[...]" end.

(** ** The [requests] library, as far as the client sees it *)

Module Requests.

(** A response.  [decoded] is what [json.loads] makes of the body: [None]
    when the body is empty or is not JSON text. *)
Record Response : Type := mkResponse {
  status_code : Z;
  decoded : option PyVal;
  content : list Byte.byte
}.

(** The attribute [response.json] of requests 0.x, the release whose
    [requests.session(auth=...)] the package calls: the decoded body, or
    [None] when it does not decode. *)
Definition json (r : Response) : PyVal :=
  match decoded r with
  | Some v => v
  | None => PNone
  end.

(** Successive reads of [chunk_size] bytes until the body is exhausted;
    a read of no bytes ends the iteration. *)
Equations? chunks (chunk_size : nat) (data : list Byte.byte)
  : list (list Byte.byte) by wf (length data) lt :=
  chunks 0 _ := [];
  chunks (S n) [] := [];
  chunks (S n) (b :: rest) :=
    firstn (S n) (b :: rest) :: chunks (S n) (skipn (S n) (b :: rest)).
Proof. simpl. pose proof (length_skipn n rest). lia. Qed.

(** [response.iter_content(chunk_size)] *)
Definition iter_content (r : Response) (chunk_size : Z) : list (list Byte.byte) :=
  chunks (Z.to_nat chunk_size) (content r).

End Requests.

(** ** [smartfile/errors.py] and raised exceptions *)

Module errors.

(** The attributes [ResponseError.__init__] sets. *)
Record ResponseError : Type := mkResponseError {
  response : Requests.Response;
  status_code : Z;
  detail : PyVal
}.

(** The exceptions that can leave the modelled code. *)
Inductive Exn : Type :=
| KeyError (key : string)
| TypeError
| ValueError
| UnboundLocalError (name : string)
| UnicodeEncodeError
| IOError (path : string)
| Exception (msg : string)
| RaisedResponseError (e : ResponseError).

Inductive result (A : Type) : Type :=
| Ok (a : A)
| Raise (e : Exn).
Arguments Ok {A} a.
Arguments Raise {A} e.

Definition result_bind {A B} (r : result A) (k : A -> result B) : result B :=
  match r with
  | Ok a => k a
  | Raise e => Raise e
  end.

End errors.
Export errors.

Notation "'try*' x ':=' c1 'in' c2" := (result_bind c1 (fun x => c2))
  (at level 10, x name, c1 at level 200, c2 at level 200).

Module PyOps.

(** [v[key]] for a string key. *)
Definition getitem (v : PyVal) (key : string) : result PyVal :=
  match v with
  | PDict d =>
      match assoc key d with
      | Some x => Ok x
      | None => Raise (KeyError key)
      end
  | _ => Raise TypeError
  end.

(** [s in v] for a string [s]. *)
Definition contains (v : PyVal) (s : string) : result bool :=
  match v with
  | PDict d => Ok (match assoc s d with Some _ => true | None => false end)
  | PList l => Ok (existsb (fun x => eq_str x s) l)
  | PStr t => Ok (str_contains t s)
  | _ => Raise TypeError
  end.

(** The method [response.json()] of requests 1.0 and later, the form
    [errors.py] calls: it raises [ValueError] on a body that does not
    decode.  (Under requests 0.x the same call applies the attribute's
    value, a dict or [None], and raises [TypeError].) *)
Definition json_call (r : Requests.Response) : result PyVal :=
  match Requests.decoded r with
  | Some v => Ok v
  | None => Raise ValueError
  end.

End PyOps.
Export PyOps.

Module ResponseError.

Definition default_detail : string := "Server error; check response for errors".

(** [ResponseError.__init__(self, response)] *)
Definition __init__ (response : Requests.Response) : result errors.ResponseError :=
  let status_code := Requests.status_code response in
  try* json := json_call response in
  if negb (truthy json) then
    Ok (mkResponseError response status_code (PStr default_detail))
  else
    try* has_detail := contains json "detail" in
    if negb has_detail then
      Ok (mkResponseError response status_code (PStr default_detail))
    else
      try* d := getitem json "detail" in
      Ok (mkResponseError response status_code d).

(** [ResponseError.__str__(self)].  The detail is the [unicode] default
    or a value of the JSON body; formatting a [unicode] string into the
    byte string ['Response {0}: {1}'] encodes it as ASCII and raises
    [UnicodeEncodeError] on any other character. *)
Definition __str__ `{Repr} (self : errors.ResponseError) : result string :=
  try* detail :=
    match errors.detail self with
    | PStr s => if is_ascii s then Ok s else Raise UnicodeEncodeError
    | other => Ok (format other)
    end in
  Ok ("Response " +:+ format (PInt (errors.status_code self)) +:+ ": " +:+ detail).

End ResponseError.

(** ** The world the client runs in *)

Inductive Method : Type := GET | POST.

Record Request : Type := mkRequest {
  method : Method;
  url : PyVal;
  data : PyVal;
  params : PyVal
}.

(** What the client did, in order. *)
Inductive Event : Type :=
| Sent (rq : Request) (rs : Requests.Response)
| Slept (secs : Z)
| Wrote (dst : string) (chunk : list Byte.byte).

Record World : Type := mkWorld {
  environ : gmap string string;
  trace : list Event;
  files : gmap string (list Byte.byte)
}.

(** The server behind the session: its answer to a request may depend on
    everything that happened before. *)
Class Transport := send : list Event -> Request -> Requests.Response.

(** The file system behind [open] and [write]: whether an operation on
    a file goes through may depend on everything that happened before. *)
Class Disk := {
  can_open : World -> string -> bool;
  can_write : World -> string -> list Byte.byte -> bool
}.

(** State and exceptions. *)
Definition M (A : Type) : Type := World -> result A * World.

Definition ret {A} (a : A) : M A := fun w => (Ok a, w).

Definition raise {A} (e : Exn) : M A := fun w => (Raise e, w).

Definition bind {A B} (m : M A) (k : A -> M B) : M B :=
  fun w =>
    match m w with
    | (Ok a, w') => k a w'
    | (Raise e, w') => (Raise e, w')
    end.

Definition lift {A} (r : result A) : M A := fun w => (r, w).

Notation "'let*' x ':=' c1 'in' c2" := (bind c1 (fun x => c2))
  (at level 10, x name, c1 at level 200, c2 at level 200).

(** [try: body except KeyError: handler] *)
Definition except_KeyError {A} (body handler : M A) : M A :=
  fun w =>
    match body w with
    | (Raise (KeyError _), w') => handler w'
    | other => other
    end.

(** [os.environ[name]] *)
Definition os_environ (name : string) : M PyVal :=
  fun w =>
    match environ w !! name with
    | Some v => (Ok (PStr v), w)
    | None => (Raise (KeyError name), w)
    end.

(** [time.sleep(secs)] *)
Definition time_sleep (secs : Z) : M unit :=
  fun w => (Ok tt, mkWorld (environ w) (trace w ++ [Slept secs]) (files w)).

Section files.
Context `{Disk}.

(** [open(dst, 'wb')]: the file is created or truncated, unless the file
    system refuses, which raises [IOError] and leaves the file alone. *)
Definition open_wb (dst : string) : M unit :=
  fun w =>
    if can_open w dst then
      (Ok tt, mkWorld (environ w) (trace w) (<[dst := []]> (files w)))
    else (Raise (IOError dst), w).

(** [dst_file.write(chunk)]: the chunk goes to the end of the file,
    unless the file system refuses, which raises [IOError]; what was
    written before stays in the file. *)
Definition file_write (dst : string) (chunk : list Byte.byte) : M unit :=
  fun w =>
    if can_write w dst chunk then
      let old := match files w !! dst with Some bs => bs | None => [] end in
      (Ok tt, mkWorld (environ w) (trace w ++ [Wrote dst chunk])
                (<[dst := old ++ chunk]> (files w)))
    else (Raise (IOError dst), w).

End files.

Section session.
Context `{Transport}.

Definition session_send (rq : Request) : M Requests.Response :=
  fun w =>
    let rs := send (trace w) rq in
    (Ok rs, mkWorld (environ w) (trace w ++ [Sent rq rs]) (files w)).

(** [self._session.get(url, **kwargs)] *)
Definition session_get (url : PyVal) (params : PyVal) : M Requests.Response :=
  session_send (mkRequest GET url PNone params).

(** [self._session.post(url, data=data, **kwargs)] *)
Definition session_post (url : PyVal) (data : PyVal) : M Requests.Response :=
  session_send (mkRequest POST url data PNone).

End session.

(** ** [smartfile/decorators.py]

    The file is not among the sources.  Every CRUD primitive is wrapped in
    its [response_processor], and the callers in [__init__.py] read
    [status_code] and [json] off what the wrapped primitive returns: the
    decorator receives the response of the one request the primitive sent
    and either hands a response back or raises.  It is a parameter of the
    endpoints. *)
Class Decorators := response_processor : Requests.Response -> result Requests.Response.

(** Modelled from the spec: [smartfile.decorators.response_processor],
    whose source file is missing.  Section 4.2: on a successful status
    (2xx) the response is returned, on any other status [ResponseError] is
    raised, built from the response. *)
Definition spec_response_processor : Decorators :=
  fun r =>
    if (200 <=? Requests.status_code r)%Z && (Requests.status_code r <? 300)%Z
    then Ok r
    else
      try* e := ResponseError.__init__ r in
      Raise (RaisedResponseError e).

(** ** [smartfile/__init__.py] *)

(** What [requests.session(auth=...)] keeps. *)
Record Session : Type := mkSession { auth : PyVal * PyVal }.

Module _BaseAPI.

Definition _baseurl : string := "http://localhost:8000/api/2/".

(** [_BaseAPI._get_auth(self, api_key, api_pass)] *)
Definition _get_auth (api_key api_pass : PyVal) : M (PyVal * PyVal) :=
  if is_none api_key && is_none api_pass then
    except_KeyError
      (let* api_key := os_environ "SMARTFILE_API_KEY" in
       let* api_pass := os_environ "SMARTFILE_API_PASS" in
       ret (api_key, api_pass))
      (raise (Exception
         "Set key/password (SMARTFILE_API_KEY, SMARTFILE_API_PASS) in environment"))
  else ret (api_key, api_pass).

(** [_BaseAPI.__init__(self, api_key=None, api_pass=None, session=None)]:
    the value of [self._session]. *)
Definition __init__ (api_key api_pass : PyVal) (session : option Session) : M Session :=
  match session with
  | Some s => ret s
  | None =>
      let* auth := _get_auth api_key api_pass in
      ret (mkSession auth)
  end.

Section gen_url.
Context `{Repr}.

(** The generator expression
    [(next(uri_iter) if x is None else x for x in self._api_uri)].
    [uri_iter] is what is left of the iterator over the caller's
    arguments.  When [next] finds it empty it raises [StopIteration]
    inside the generator, which ends the generator there. *)
Fixpoint paths (_api_uri : list (option string)) (uri_iter : list PyVal)
  : list PyVal :=
  match _api_uri with
  | [] => []
  | Some x :: rest => PStr x :: paths rest uri_iter
  | None :: rest =>
      match uri_iter with
      | [] => []
      | a :: uri_iter' => a :: paths rest uri_iter'
      end
  end.

(** One round of the loop [for arg in paths]. *)
Definition join (url : string) (arg : PyVal) : string :=
  let arg :=
    match arg with
    | PStr s => if startswith s "/" then PStr (tail1 s) else arg
    | _ => arg
    end in
  if ne_str arg "/" then
    let sep := if endswith url "/" then EmptyString else "/" in
    url +:+ sep +:+ format arg
  else url.

(** [_BaseAPI._gen_url(self, uri_args=(), baseurl=None)], for the class
    attribute [_api_uri] of [self]. *)
Definition _gen_url (_api_uri : list (option string))
    (uri_args : list PyVal) (baseurl : option string) : string :=
  let url :=
    match baseurl with
    | Some b => if String.eqb b EmptyString then _baseurl else b
    | None => _baseurl
    end in
  fold_left join (paths _api_uri uri_args) url.

Context `{Transport} `{Decorators}.

(** [_BaseAPI._create(self, data=None, *args, **kwargs)] *)
Definition _create (_api_uri : list (option string)) (data : PyVal)
    (args : list PyVal) (baseurl : option string) : M Requests.Response :=
  let url := _gen_url _api_uri args baseurl in
  let* r := session_post (PStr url) data in
  lift (response_processor r).

(** [_BaseAPI._read(self, *args, **kwargs)]; [params] is the keyword
    argument handed on to [session.get], [PNone] when there is none. *)
Definition _read (_api_uri : list (option string)) (args : list PyVal)
    (baseurl : option string) (params : PyVal) : M Requests.Response :=
  let url := _gen_url _api_uri args baseurl in
  let* r := session_get (PStr url) params in
  lift (response_processor r).

End gen_url.

End _BaseAPI.

Module UserAPI.
Definition _api_uri : list (option string) := [Some "user/"; None; Some "/"].
End UserAPI.

Module PathOperAPI.

Definition _api_uri : list (option string) :=
  [Some "path/oper/"; None; None; None; Some "/"].

Section methods.
Context `{Repr} `{Transport} `{Decorators}.

(** [PathOperAPI.remove(self, path)] *)
Definition remove (path : PyVal) : M Requests.Response :=
  _BaseAPI._create _api_uri (PDict [("path", path)]) [PStr "remove/"] None.

(** [response.json['result']['status']] *)
Definition result_status (response : Requests.Response) : result PyVal :=
  try* result := getitem (Requests.json response) "result" in
  getitem result "status".

(** The loop [while checks > 0] of [poll], for [checks] as a natural
    number.  [response] is the local variable, unbound before the first
    read. *)
Fixpoint poll_loop (checks : nat) (url : PyVal) (check_timeout : Z)
    (response : option Requests.Response) : M (option Requests.Response) :=
  match checks with
  | O => ret response
  | S checks' =>
      let* response := session_get url PNone in
      if negb (Requests.status_code response =? 200)%Z then ret (Some response)
      else
        let* status := lift (result_status response) in
        if eq_str status "SUCCESS" then ret (Some response)
        else
          let* _ := time_sleep check_timeout in
          poll_loop checks' url check_timeout (Some response)
  end.

(** [PathOperAPI.poll(self, url, checks=5, check_timeout=2)] *)
Definition poll (url : PyVal) (checks : Z) (check_timeout : Z)
  : M Requests.Response :=
  let* response := poll_loop (Z.to_nat checks) url check_timeout None in
  match response with
  | Some r => ret r
  | None => raise (UnboundLocalError "response")
  end.

End methods.

End PathOperAPI.

Module PathTreeAPI.

Definition _api_uri : list (option string) := [Some "path/tree/"; None].

Section methods.
Context `{Repr} `{Transport} `{Decorators}.

(** [PathTreeAPI.read(self, path='/', children=False, *args, **kwargs)] *)
Definition read (path : PyVal) (children : bool) (args : list PyVal)
  : M Requests.Response :=
  let params := if children then PDict [("children", PBool true)] else PNone in
  _BaseAPI._read _api_uri (path :: args) None params.

End methods.

End PathTreeAPI.

Module PathDataAPI.

Definition _api_uri : list (option string) := [Some "path/"; None; Some "data/"].

Section methods.
Context `{Repr} `{Transport} `{Decorators}.

(** The property [PathDataAPI.read], which is [self._read]. *)
Definition read (args : list PyVal) : M Requests.Response :=
  _BaseAPI._read _api_uri args None PNone.

End methods.

End PathDataAPI.

Module PathAPI.

Definition _api_uri : list (option string) := [Some "path/"; None; Some "/"].

(** How a caller hands the [session] argument to a constructor: not at
    all, as the third positional argument, or by keyword.  The value may
    be [None] in both given forms. *)
Inductive SessionArg : Type :=
| Absent
| Positional (s : option Session)
| Keyword (s : option Session).

Definition session_value (a : SessionArg) : option Session :=
  match a with
  | Absent => None
  | Positional s | Keyword s => s
  end.

(** A [PathAPI] object: its session and its three endpoints, each of
    which stands for its one attribute, the session it was built with. *)
Record Self : Type := mkSelf {
  _session : Session;
  _path_data_api : Session;
  _path_oper_api : Session;
  _path_tree_api : Session
}.

(** A call of an endpoint class with the caller's own positional and
    keyword arguments after [kwargs['session'] = session]: with a third
    positional argument the parameter [session] gets two values. *)
Definition construct_with_session (api_key api_pass : PyVal) (a : SessionArg)
    (session : Session) : M Session :=
  match a with
  | Positional _ => raise TypeError
  | Absent | Keyword _ => _BaseAPI.__init__ api_key api_pass (Some session)
  end.

(** [PathAPI.__init__(self, *args, **kwargs)] *)
Definition __init__ (api_key api_pass : PyVal) (a : SessionArg) : M Self :=
  let* session := _BaseAPI.__init__ api_key api_pass (session_value a) in
  let* data := construct_with_session api_key api_pass a session in
  let* oper := construct_with_session api_key api_pass a session in
  let* tree := construct_with_session api_key api_pass a session in
  ret (mkSelf session data oper tree).

Section methods.
Context `{Repr} `{Transport} `{Decorators} `{Disk}.

(** [PathAPI.remove(self, path)]; [poll] runs with its defaults. *)
Definition remove (path : PyVal) : M Requests.Response :=
  let* response := PathOperAPI.remove path in
  if (Requests.status_code response =? 200)%Z then
    let* url := lift (getitem (Requests.json response) "url") in
    PathOperAPI.poll url 5 2
  else ret response.

(** The loop [for chunk in ...: dst_file.write(chunk)]; a write that
    raises ends it. *)
Fixpoint write_chunks (dst : string) (chunks : list (list Byte.byte)) : M unit :=
  match chunks with
  | [] => ret tt
  | chunk :: chunks' =>
      let* _ := file_write dst chunk in
      write_chunks dst chunks'
  end.

(** [PathAPI.download(self, dst, src)]; [self.read] is the tree
    endpoint's [read]. *)
Definition download (dst : string) (src : PyVal) : M Requests.Response :=
  let* tree := PathTreeAPI.read src false [] in
  let* id := lift (getitem (Requests.json tree) "id") in
  let* response := PathDataAPI.read [id] in
  if (Requests.status_code response =? 200)%Z then
    let* _ := open_wb dst in
    let* _ := write_chunks dst (Requests.iter_content response (16 * 1024)) in
    ret response
  else ret response.

End methods.

End PathAPI.

Module RoleAPI.
Definition _api_uri : list (option string) := [Some "role/"; None; Some "/"].
End RoleAPI.

Module API.

(** The endpoint classes the facade hands out. *)
Inductive Class : Type := CPathAPI | CPathOperAPI | CPathTreeAPI | CRoleAPI | CUserAPI.

(** An endpoint object: a [PathAPI] with its parts, or an object of one
    of the other classes, which holds a session only. *)
Inductive Endpoint : Type :=
| Path (self : PathAPI.Self)
| Plain (cls : Class) (session : Session).

(** The facade: its session and the attributes [_get_api] has set. *)
Record Self : Type := mkSelf {
  _session : Session;
  attrs : gmap string Endpoint
}.

(** [API.__init__(self, api_key=None, api_pass=None)] *)
Definition __init__ (api_key api_pass : PyVal) : M Self :=
  let* session := _BaseAPI.__init__ api_key api_pass None in
  ret (mkSelf session ∅).

(** The call [cls(None, None, session=self._session)]. *)
Definition instantiate (cls : Class) (session : Session) : M Endpoint :=
  match cls with
  | CPathAPI =>
      let* p := PathAPI.__init__ PNone PNone (PathAPI.Keyword (Some session)) in
      ret (Path p)
  | _ =>
      let* s := _BaseAPI.__init__ PNone PNone (Some session) in
      ret (Plain cls s)
  end.

(** [API._get_api(self, attr, cls)]: the endpoint and the facade after
    the call. *)
Definition _get_api (attr : string) (cls : Class) (self : Self) : M (Endpoint * Self) :=
  match attrs self !! attr with
  | Some api => ret (api, self)
  | None =>
      let* api := instantiate cls (_session self) in
      ret (api, mkSelf (_session self) (<[attr := api]> (attrs self)))
  end.

(** The properties [path], [path_oper], [path_tree], [role] and [user]. *)
Definition path : Self -> M (Endpoint * Self) := _get_api "_api_path_obj" CPathAPI.
Definition path_oper : Self -> M (Endpoint * Self) := _get_api "_api_path_oper_obj" CPathOperAPI.
Definition path_tree : Self -> M (Endpoint * Self) := _get_api "_api_path_tree_obj" CPathTreeAPI.
Definition role : Self -> M (Endpoint * Self) := _get_api "_api_role_obj" CRoleAPI.
Definition user : Self -> M (Endpoint * Self) := _get_api "_api_user_obj" CUserAPI.

End API.

(** * Vocabulary of the properties *)

(** ** Strings and templates *)

(** No character of [s] is a slash. *)
Fixpoint no_slash (s : string) : bool :=
  match s with
  | EmptyString => true
  | String c s' => negb (Ascii.eqb c "/") && no_slash s'
  end.

(** [s] is empty or starts with a slash. *)
Definition at_boundary (s : string) : bool :=
  match s with
  | EmptyString => true
  | String c _ => Ascii.eqb c "/"
  end.

(** The path components of a string: its maximal runs of characters
    other than the slash, in order. *)
Fixpoint components (s : string) : list string :=
  match s with
  | EmptyString => []
  | String c s' =>
      if Ascii.eqb c "/" then components s'
      else if at_boundary s' then String c EmptyString :: components s'
      else
        match components s' with
        | h :: tl => String c h :: tl
        | [] => [String c EmptyString]
        end
  end.

(** The base URL a resolution starts from: the one given, or the
    package's when none or an empty one is given. *)
Definition base_of (baseurl : option string) : string :=
  match baseurl with
  | Some b => if String.eqb b EmptyString then _BaseAPI._baseurl else b
  | None => _BaseAPI._baseurl
  end.

(** Number of placeholders ([None]) of a template. *)
Fixpoint placeholders (t : list (option string)) : nat :=
  match t with
  | [] => 0
  | None :: t' => S (placeholders t')
  | Some _ :: t' => placeholders t'
  end.

(** The segments of a template that stand before its placeholder number
    [n] (counted from 0). *)
Fixpoint before_placeholder (n : nat) (t : list (option string))
  : list (option string) :=
  match t with
  | [] => []
  | Some x :: t' => Some x :: before_placeholder n t'
  | None :: t' =>
      match n with
      | O => []
      | S n' => None :: before_placeholder n' t'
      end
  end.

(** A value whose text cannot bring a doubled slash into a URL. *)
Definition clean (v : PyVal) : bool :=
  match v with
  | PStr s => negb (str_contains s "//")
  | PList _ | PDict _ => false
  | _ => true
  end.

Definition clean_segment (x : option string) : bool :=
  match x with
  | Some s => negb (str_contains s "//")
  | None => true
  end.

(** The separator [join] puts before a segment. *)
Definition sep (url : string) : string :=
  if endswith url "/" then EmptyString else "/".

(** What one round of the loop appends: nothing for a segment that is
    [/] once its leading slash is cut, the segment's text otherwise. *)
Definition segment_text `{Repr} (arg : PyVal) : option string :=
  match arg with
  | PStr s =>
      let s' := if startswith s "/" then tail1 s else s in
      if String.eqb s' "/" then None else Some s'
  | other => Some (format other)
  end.

(** ** Traces and runs *)

Definition method_eqb (a b : Method) : bool :=
  match a, b with
  | GET, GET | POST, POST => true
  | _, _ => false
  end.

(** The requests of method [m] among some events, each with its response,
    in order. *)
Fixpoint sent (m : Method) (evs : list Event) : list (Request * Requests.Response) :=
  match evs with
  | [] => []
  | Sent rq rs :: evs' =>
      if method_eqb (method rq) m then (rq, rs) :: sent m evs' else sent m evs'
  | Slept _ :: evs' => sent m evs'
  | Wrote _ _ :: evs' => sent m evs'
  end.

(** The world after some more events. *)
Definition add_events (w : World) (evs : list Event) : World :=
  mkWorld (environ w) (trace w ++ evs) (files w).

(** The read that [poll] sends. *)
Definition poll_request (url : PyVal) : Request := mkRequest GET url PNone PNone.

(** What a round of [poll] can leave in the trace. *)
Definition poll_event (url : PyVal) (check_timeout : Z) (e : Event) : Prop :=
  (exists r, e = Sent (poll_request url) r) \/ e = Slept check_timeout.

(** The response of the last read among some events, [default] when there
    is no read. *)
Definition last_response (evs : list Event) (default : option Requests.Response)
  : option Requests.Response :=
  match last (sent GET evs) with
  | Some (_, r) => Some r
  | None => default
  end.

(** ** Responses and servers of the examples *)

(** A response with status 200 whose body says the operation is
    pending, or done. *)
Definition is_pending (r : Requests.Response) : Prop :=
  Requests.status_code r = 200%Z /\
  PathOperAPI.result_status r = Ok (PStr "PENDING").

Definition is_success (r : Requests.Response) : Prop :=
  Requests.status_code r = 200%Z /\
  PathOperAPI.result_status r = Ok (PStr "SUCCESS").

Definition json_response (status : Z) (body : PyVal) : Requests.Response :=
  Requests.mkResponse status (Some body) [].

Definition pending_response : Requests.Response :=
  json_response 200 (PDict [("result", PDict [("status", PStr "PENDING")])]).

Definition success_response : Requests.Response :=
  json_response 200 (PDict [("result", PDict [("status", PStr "SUCCESS")])]).

(** Servers for closed examples. *)
Definition always_pending : Transport := fun _ _ => pending_response.

Definition pending_twice : Transport :=
  fun history _ =>
    if length (sent GET history) <? 2 then pending_response else success_response.

Definition empty_object : Transport := fun _ _ => json_response 200 (PDict []).

Definition always_503 : Transport := fun _ _ => Requests.mkResponse 503 None [].

(** The submission is answered with a poll URL, the reads with
    "pending" twice and then "success". *)
Definition remove_server : Transport :=
  fun history rq =>
    match method rq with
    | POST => json_response 200 (PDict [("url", PStr "http://host/op/1/")])
    | GET => pending_twice history rq
    end.

Definition w0 : World := mkWorld ∅ [] ∅.


(** A server for a closed example: the first read is the tree lookup,
    answered with an id; later reads are answered with a file body. *)
Definition file_server : Transport :=
  fun history _ =>
    match sent GET history with
    | [] => json_response 200 (PDict [("id", PInt 7)])
    | _ :: _ => Requests.mkResponse 200 None (list_byte_of_string "Hello World!")
    end.

(** ** Sleeps and answers of the poll loop *)

(** The sleeps among some events, in order. *)
Fixpoint sleeps (evs : list Event) : list Z :=
  match evs with
  | [] => []
  | Slept secs :: evs' => secs :: sleeps evs'
  | Sent _ _ :: evs' => sleeps evs'
  | Wrote _ _ :: evs' => sleeps evs'
  end.

(** The chunks written to the file [dst] among some events, one per call
    of [write], in order. *)
Fixpoint written (dst : string) (evs : list Event) : list (list Byte.byte) :=
  match evs with
  | [] => []
  | Wrote d chunk :: evs' =>
      if String.eqb d dst then chunk :: written dst evs' else written dst evs'
  | Sent _ _ :: evs' => written dst evs'
  | Slept _ :: evs' => written dst evs'
  end.

(** An answer on which [poll] breaks out of its loop: a status other
    than 200, or a body whose [result.status] is [SUCCESS]. *)
Definition ends_poll (r : Requests.Response) : Prop :=
  Requests.status_code r <> 200%Z \/
  exists st, PathOperAPI.result_status r = Ok st /\ eq_str st "SUCCESS" = true.

(** An answer after which [poll] goes on: status 200 and a
    [result.status] other than [SUCCESS]. *)
Definition keeps_polling (r : Requests.Response) : Prop :=
  Requests.status_code r = 200%Z /\
  exists st, PathOperAPI.result_status r = Ok st /\ eq_str st "SUCCESS" = false.



(** A file system that refuses nothing. *)
Definition sound_disk : Disk :=
  {| can_open := fun _ _ => true; can_write := fun _ _ _ => true |}.

(** The read of the tree endpoint that [download] starts with. *)
Definition tree_request `{Repr} (src : PyVal) : Request :=
  mkRequest GET (PStr (_BaseAPI._gen_url PathTreeAPI._api_uri [src] None)) PNone PNone.

(** The data request that follows a tree lookup with the id [id]. *)
Definition data_request `{Repr} (id : PyVal) : Request :=
  mkRequest GET (PStr (_BaseAPI._gen_url PathDataAPI._api_uri [id] None)) PNone PNone.

(** * Properties *)

Ltac split6 := split; [|split; [|split; [|split; [|split]]]].

(** ** Strings *)

Lemma append_nil (b : string) : EmptyString +:+ b = b.
Proof. reflexivity. Qed.

Lemma append_cons (c : ascii) (a b : string) : String c a +:+ b = String c (a +:+ b).
Proof. reflexivity. Qed.

Lemma append_empty_r (s : string) : s +:+ EmptyString = s.
Proof.
  induction s as [|c s IH]; [reflexivity|]. now rewrite append_cons, IH.
Qed.

Lemma append_assoc (a b c : string) : (a +:+ b) +:+ c = a +:+ (b +:+ c).
Proof.
  induction a as [|x a IH]; [reflexivity|]. now rewrite !append_cons, IH.
Qed.

Ltac str_norm := rewrite ?append_nil, ?append_empty_r, ?append_assoc.

Lemma startswith_slash (s : string) :
  startswith s "/" = match s with String c _ => Ascii.eqb c "/" | EmptyString => false end.
Proof. destruct s as [|c s]; simpl; [reflexivity | now rewrite andb_true_r]. Qed.

Lemma endswith_slash_cons (c : ascii) (s : string) :
  endswith (String c s) "/" =
  match s with EmptyString => Ascii.eqb c "/" | String _ _ => endswith s "/" end.
Proof.
  destruct s as [|d s].
  - cbn. destruct (Ascii.eqb c "/"); reflexivity.
  - change (endswith (String c (String d s)) "/")
      with (String.eqb (String c (String d s)) "/" || endswith (String d s) "/").
    replace (String.eqb (String c (String d s)) "/") with false; [reflexivity|].
    cbn. destruct (Ascii.eqb c "/"); reflexivity.
Qed.

Lemma endswith_slash_app (a b : string) :
  endswith (a +:+ b) "/" =
  match b with EmptyString => endswith a "/" | String _ _ => endswith b "/" end.
Proof.
  destruct b as [|d b]; [now rewrite append_empty_r|].
  induction a as [|c a IH]; [reflexivity|].
  rewrite append_cons, endswith_slash_cons, IH. destruct a; reflexivity.
Qed.

Lemma contains_dslash_cons (c : ascii) (s : string) :
  str_contains (String c s) "//" =
  (Ascii.eqb c "/" && startswith s "/") || str_contains s "//".
Proof.
  change (str_contains (String c s) "//")
    with (startswith (String c s) "//" || str_contains s "//").
  f_equal.
Qed.

Lemma contains_dslash_app (a b : string) :
  str_contains (a +:+ b) "//" =
  str_contains a "//" || str_contains b "//" || (endswith a "/" && startswith b "/").
Proof.
  induction a as [|c a IH].
  - rewrite append_nil. cbn. now rewrite orb_false_r.
  - rewrite append_cons, !contains_dslash_cons, IH, endswith_slash_cons.
    destruct a as [|d a].
    + rewrite append_nil.
      change (str_contains EmptyString "//") with false.
      change (endswith EmptyString "/") with false.
      change (startswith EmptyString "/") with false.
      destruct (Ascii.eqb c "/"), (startswith b "/"), (str_contains b "//"); reflexivity.
    + rewrite append_cons, !startswith_slash.
      destruct (Ascii.eqb c "/"), (Ascii.eqb d "/"), (str_contains (String d a) "//"),
        (str_contains b "//"), (endswith (String d a) "/"), (startswith b "/"); reflexivity.
Qed.

Lemma no_slash_startswith (s : string) : no_slash s = true -> startswith s "/" = false.
Proof.
  rewrite startswith_slash. destruct s as [|c s]; [reflexivity|]. cbn.
  destruct (Ascii.eqb c "/"); [discriminate | reflexivity].
Qed.

Lemma no_slash_contains (s : string) : no_slash s = true -> str_contains s "//" = false.
Proof.
  induction s as [|c s IH]; [reflexivity|].
  cbn [no_slash]. intros [Hc Hs]%andb_prop.
  rewrite contains_dslash_cons, IH by assumption.
  destruct (Ascii.eqb c "/"); [discriminate | reflexivity].
Qed.

Lemma no_slash_endswith (s : string) : no_slash s = true -> endswith s "/" = false.
Proof.
  induction s as [|c s IH]; [reflexivity|].
  cbn [no_slash]. intros [Hc Hs]%andb_prop.
  rewrite endswith_slash_cons. destruct s; [|now apply IH].
  destruct (Ascii.eqb c "/"); [discriminate | reflexivity].
Qed.

Lemma no_slash_uint (d : Decimal.uint) : no_slash (NilEmpty.string_of_uint d) = true.
Proof. induction d; cbn; assumption || reflexivity. Qed.

Lemma no_slash_str_of_int (n : Z) : no_slash (str_of_int n) = true.
Proof.
  unfold str_of_int, NilZero.string_of_int, NilZero.string_of_uint.
  destruct (Z.to_int n) as [d|d]; destruct d; cbn -[NilEmpty.string_of_uint];
    try reflexivity; apply (no_slash_uint (_ d)) || apply no_slash_uint.
Qed.

(** ** URL generation *)

Section gen_url_facts.
Context `{Repr}.

Import _BaseAPI.

Lemma paths_length (t : list (option string)) (args : list PyVal) :
  placeholders t <= length args -> length (paths t args) = length t.
Proof.
  revert args. induction t as [|[x|] t IH]; intros args Hk; cbn in *.
  - reflexivity.
  - now rewrite IH.
  - destruct args as [|a args]; cbn in *; [lia|]. rewrite IH; [reflexivity | lia].
Qed.

Lemma paths_literal (t : list (option string)) (args : list PyVal) (i : nat) (x : string) :
  placeholders t <= length args ->
  t !! i = Some (Some x) -> paths t args !! i = Some (PStr x).
Proof.
  revert args i. induction t as [|[y|] t IH]; intros args i Hk Hi; cbn in *.
  - discriminate.
  - destruct i as [|i]; cbn in *; [congruence | now apply IH].
  - destruct args as [|a args]; cbn in *; [lia|].
    destruct i as [|i]; cbn in *; [discriminate | apply IH; [lia | assumption]].
Qed.

Lemma paths_placeholder (t : list (option string)) (args : list PyVal) (i : nat) :
  placeholders t <= length args ->
  t !! i = Some None -> paths t args !! i = args !! placeholders (take i t).
Proof.
  revert args i. induction t as [|[y|] t IH]; intros args i Hk Hi; cbn in *.
  - discriminate.
  - destruct i as [|i]; cbn in *; [discriminate | now apply IH].
  - destruct args as [|a args]; cbn in *; [lia|].
    destruct i as [|i]; cbn in *; [reflexivity | apply IH; [lia | assumption]].
Qed.

Lemma paths_take (t : list (option string)) (args : list PyVal) :
  paths t args = paths t (take (placeholders t) args).
Proof.
  revert args. induction t as [|[y|] t IH]; intros args; cbn.
  - reflexivity.
  - now rewrite <- IH.
  - destruct args as [|a args]; cbn; [reflexivity | now rewrite <- IH].
Qed.

Lemma paths_before (t : list (option string)) (args : list PyVal) :
  length args < placeholders t ->
  paths t args = paths (before_placeholder (length args) t) args.
Proof.
  revert args. induction t as [|[y|] t IH]; intros args Hk; cbn in *.
  - reflexivity.
  - now rewrite <- IH.
  - destruct args as [|a args]; cbn in *; [reflexivity|]. rewrite <- IH; [reflexivity | lia].
Qed.

Lemma before_placeholder_prefix (n : nat) (t : list (option string)) :
  n < placeholders t ->
  (exists rest, t = before_placeholder n t ++ None :: rest) /\
  placeholders (before_placeholder n t) = n.
Proof.
  revert n. induction t as [|[y|] t IH]; intros n Hk; cbn in *.
  - lia.
  - destruct (IH n Hk) as [[rest Hrest] Hn]. split; [|assumption].
    exists rest. now rewrite <- Hrest.
  - destruct n as [|n]; cbn.
    + split; [now exists t | reflexivity].
    + destruct (IH n) as [[rest Hrest] Hn]; [lia|]. split; [|now rewrite Hn].
      exists rest. now rewrite <- Hrest.
Qed.

Lemma join_plain (url s : string) :
  startswith s "/" = false ->
  join url (PStr s) = url +:+ sep url +:+ s.
Proof.
  intros Hs. unfold join. rewrite Hs. unfold ne_str, eq_str.
  destruct (String.eqb_spec s "/") as [->|_]; [discriminate Hs | reflexivity].
Qed.

Lemma join_slashed (url s : string) :
  join url (PStr (String "/" s)) =
  if String.eqb s "/" then url else url +:+ sep url +:+ s.
Proof.
  unfold join. cbn [startswith tail1]. rewrite Ascii.eqb_refl. cbn [andb].
  unfold ne_str, eq_str. destruct (String.eqb s "/"); reflexivity.
Qed.

Lemma join_int (url : string) (n : Z) :
  join url (PInt n) = url +:+ sep url +:+ str_of_int n.
Proof. reflexivity. Qed.

End gen_url_facts.

Section join_facts.
Context `{Repr}.

Import _BaseAPI.

Lemma join_segment_text (url : string) (arg : PyVal) :
  join url arg =
  match segment_text arg with
  | None => url
  | Some f => url +:+ sep url +:+ f
  end.
Proof.
  destruct arg as [| [|] | n | s | l | d]; try reflexivity.
  unfold join, segment_text, ne_str, eq_str.
  destruct (startswith s "/"); cbn zeta;
    match goal with |- context [String.eqb ?a ?b] => destruct (String.eqb a b) end;
    reflexivity.
Qed.

Lemma clean_segment_text (arg : PyVal) (f : string) :
  clean arg = true -> segment_text arg = Some f ->
  startswith f "/" = false /\ str_contains f "//" = false.
Proof.
  destruct arg as [| [|] | n | s | l | d]; cbn [clean segment_text format];
    try discriminate; intros Hc.
  1-3: intros [= <-]; split; reflexivity.
  - intros [= <-]. split; [apply no_slash_startswith | apply no_slash_contains];
      apply no_slash_str_of_int.
  - apply negb_true_iff in Hc.
    destruct s as [|c s]; [intros [= <-]; split; reflexivity|].
    rewrite contains_dslash_cons in Hc. apply orb_false_elim in Hc as [Hcs Hs].
    rewrite startswith_slash. cbn [tail1].
    destruct (Ascii.eqb c "/") eqn:Ec.
    + cbn [andb] in Hcs. destruct (String.eqb s "/"); [discriminate|].
      intros [= <-]. split; assumption.
    + destruct (String.eqb (String c s) "/"); [discriminate|].
      intros [= <-]. split; [|now rewrite contains_dslash_cons, Ec, Hs].
      now rewrite startswith_slash, Ec.
Qed.

Lemma append_segment_clean (p f : string) :
  str_contains p "//" = false -> startswith f "/" = false ->
  str_contains f "//" = false ->
  str_contains (p +:+ sep p +:+ f) "//" = false.
Proof.
  intros Hp Hf Hff. unfold sep. rewrite contains_dslash_app, Hp.
  destruct (endswith p "/").
  - now rewrite append_nil, Hf, Hff.
  - rewrite append_cons, append_nil, contains_dslash_cons, Hf, Hff. reflexivity.
Qed.

Lemma sep_prefix (scheme p : string) : p <> EmptyString -> sep (scheme +:+ p) = sep p.
Proof.
  intros Hp. unfold sep. rewrite endswith_slash_app.
  destruct p; [contradiction | reflexivity].
Qed.

Lemma append_nonempty (p q : string) : p <> EmptyString -> p +:+ q <> EmptyString.
Proof. destruct p; [contradiction|]. now rewrite append_cons. Qed.

Lemma join_clean (scheme p : string) (arg : PyVal) :
  p <> EmptyString -> str_contains p "//" = false -> clean arg = true ->
  join (scheme +:+ p) arg = scheme +:+ join p arg /\
  join p arg <> EmptyString /\
  str_contains (join p arg) "//" = false.
Proof.
  intros Hp Hpp Hc. rewrite !join_segment_text.
  destruct (segment_text arg) as [f|] eqn:Ef; [|auto].
  destruct (clean_segment_text arg f Hc Ef) as [Hf Hff].
  rewrite sep_prefix, append_assoc by assumption.
  repeat split; [now apply append_nonempty | now apply append_segment_clean].
Qed.

Lemma fold_join_clean (scheme : string) (l : list PyVal) (p : string) :
  p <> EmptyString -> str_contains p "//" = false ->
  Forall (fun a => clean a = true) l ->
  fold_left join l (scheme +:+ p) = scheme +:+ fold_left join l p /\
  str_contains (fold_left join l p) "//" = false.
Proof.
  intros Hp Hpp Hl. revert p Hp Hpp.
  induction Hl as [|a l Ha Hl IH]; intros p Hp Hpp; cbn [fold_left]; [auto|].
  destruct (join_clean scheme p a Hp Hpp Ha) as (-> & Hn & Hc).
  now apply IH.
Qed.

Lemma paths_clean (t : list (option string)) (args : list PyVal) :
  Forall (fun x => clean_segment x = true) t ->
  Forall (fun a => clean a = true) args ->
  Forall (fun a => clean a = true) (paths t args).
Proof.
  intros Ht. revert args. induction Ht as [|[x|] t Hx Ht IH]; intros args Ha; cbn.
  - constructor.
  - constructor; [exact Hx | now apply IH].
  - destruct Ha as [|a args Ha Hargs]; constructor; [exact Ha | now apply IH].
Qed.

Lemma components_word (s : string) :
  at_boundary s = false -> exists h tl, components s = h :: tl.
Proof.
  destruct s as [|c s]; [discriminate|]. cbn [at_boundary components]. intros ->.
  destruct (at_boundary s); [eauto|]. destruct (components s); eauto.
Qed.

Lemma components_sep (a b : string) :
  components (a +:+ String "/" b) = components a ++ components b.
Proof.
  induction a as [|c a IH]; [reflexivity|].
  rewrite append_cons. cbn [components]. rewrite IH.
  destruct (Ascii.eqb c "/"); [reflexivity|].
  destruct a as [|d a]; [reflexivity|].
  rewrite append_cons. cbn [at_boundary].
  destruct (Ascii.eqb d "/") eqn:Ed; [reflexivity|].
  destruct (components_word (String d a)) as (h & tl & ->); [exact Ed | reflexivity].
Qed.

Lemma components_after_slash (a b : string) :
  endswith a "/" = true -> components (a +:+ b) = components a ++ components b.
Proof.
  induction a as [|c a IH]; [discriminate|].
  rewrite endswith_slash_cons, append_cons. cbn [components].
  destruct a as [|d a].
  - intros ->. reflexivity.
  - intros Ha. rewrite (IH Ha), append_cons. cbn [at_boundary].
    destruct (Ascii.eqb c "/"); [reflexivity|].
    destruct (Ascii.eqb d "/") eqn:Ed; [reflexivity|].
    destruct (components_word (String d a)) as (h & tl & ->); [exact Ed | reflexivity].
Qed.

Lemma components_glue (url f : string) :
  components (url +:+ sep url +:+ f) = components url ++ components f.
Proof.
  unfold sep. destruct (endswith url "/") eqn:E.
  - rewrite append_nil. now apply components_after_slash.
  - apply components_sep.
Qed.

Lemma components_strip (s : string) :
  components (if startswith s "/" then tail1 s else s) = components s.
Proof.
  rewrite startswith_slash. destruct s as [|c s]; [reflexivity|].
  destruct (Ascii.eqb c "/") eqn:E; [|reflexivity].
  cbn [components tail1]. now rewrite E.
Qed.

Lemma components_join (url : string) (arg : PyVal) :
  components (join url arg) = components url ++ components (format arg).
Proof.
  rewrite join_segment_text.
  destruct arg as [| b | n | s | l | d]; cbn [segment_text];
    try apply components_glue.
  cbn [format]. rewrite <- (components_strip s).
  destruct (String.eqb_spec (if startswith s "/" then tail1 s else s) "/") as [->|_].
  - symmetry. apply app_nil_r.
  - apply components_glue.
Qed.

Lemma components_fold_join (l : list PyVal) (url : string) :
  components (fold_left join l url) =
  components url ++ flat_map (fun a => components (format a)) l.
Proof.
  revert url. induction l as [|a l IH]; intros url; cbn [fold_left flat_map].
  - symmetry. apply app_nil_r.
  - now rewrite IH, components_join, <- app_assoc.
Qed.

End join_facts.

(** C1, as the code has it.  When the caller gives fewer arguments than
    the template has placeholders, [_gen_url] does not fail: the generator
    stops at the first placeholder left without an argument, and the URL
    returned is the one of the template cut just before that placeholder,
    whose placeholders the arguments fill exactly. *)
Theorem gen_url_too_few_args `{Repr} (t : list (option string))
    (args : list PyVal) (baseurl : option string) :
  length args < placeholders t ->
  let cut := before_placeholder (length args) t in
  (exists rest, t = cut ++ None :: rest) /\
  placeholders cut = length args /\
  _BaseAPI.paths t args = _BaseAPI.paths cut args /\
  length (_BaseAPI.paths t args) = length cut /\
  _BaseAPI._gen_url t args baseurl = _BaseAPI._gen_url cut args baseurl.
Proof.
  intros Hk cut.
  destruct (before_placeholder_prefix (length args) t Hk) as [Hrest Hn].
  pose proof (paths_before t args Hk) as Hp. fold cut in Hrest, Hn, Hp.
  repeat split; try assumption.
  - rewrite Hp. apply paths_length. lia.
  - unfold _BaseAPI._gen_url. now rewrite Hp.
Qed.

(** The user template with no argument: the URL stops after [user/]. *)
Lemma gen_url_too_few_args_witness :
  _BaseAPI.paths UserAPI._api_uri [] = [PStr "user/"] /\
  _BaseAPI._gen_url UserAPI._api_uri [] None =
  _BaseAPI._gen_url [Some "user/"] [] None.
Proof.
  destruct (gen_url_too_few_args UserAPI._api_uri [] None) as (_ & _ & Hp & _ & Hu).
  - cbn. lia.
  - split; [exact Hp | exact Hu].
Defined.

(** C1 fails on the code: the user template has one placeholder, the
    call gives no argument, and a URL comes back. *)
Lemma gen_url_too_few_args_counterexample :
  length ([] : list PyVal) < placeholders UserAPI._api_uri /\
  _BaseAPI._gen_url UserAPI._api_uri [] None = "http://localhost:8000/api/2/user/".
Proof. split; [cbn; lia | reflexivity]. Qed.

(** The package relies on it: [PathOperAPI.remove] fills one of the three
    placeholders of its template. *)
Example oper_remove_url :
  _BaseAPI._gen_url PathOperAPI._api_uri [PStr "remove/"] None =
  "http://localhost:8000/api/2/path/oper/remove/".
Proof. reflexivity. Qed.

(** C2, as the code has it.  With at least as many arguments as
    placeholders, every segment of the template is used, the literals in
    place and placeholder number [j] replaced by argument number [j]; the
    path components of the URL returned are those of the base followed,
    in order, by those of each of these segments; arguments beyond the
    placeholders are ignored; and when neither the path part [p] of the
    base, nor a literal, nor a used argument holds a doubled slash (and
    no used argument is a list or a dict), the path part of the result
    holds none. *)
Theorem gen_url_enough_args `{Repr} (t : list (option string))
    (args : list PyVal) (baseurl : option string) (scheme p : string) :
  placeholders t <= length args ->
  length (_BaseAPI.paths t args) = length t /\
  (forall i x, t !! i = Some (Some x) ->
     _BaseAPI.paths t args !! i = Some (PStr x)) /\
  (forall i, t !! i = Some None ->
     _BaseAPI.paths t args !! i = args !! placeholders (take i t)) /\
  components (_BaseAPI._gen_url t args baseurl) =
    components (base_of baseurl) ++
    flat_map (fun a => components (format a)) (_BaseAPI.paths t args) /\
  _BaseAPI._gen_url t args baseurl =
    _BaseAPI._gen_url t (take (placeholders t) args) baseurl /\
  (p <> EmptyString -> str_contains p "//" = false ->
   Forall (fun x => clean_segment x = true) t ->
   Forall (fun a => clean a = true) (take (placeholders t) args) ->
   _BaseAPI._gen_url t args (Some (scheme +:+ p)) =
     scheme +:+ _BaseAPI._gen_url t args (Some p) /\
   str_contains (_BaseAPI._gen_url t args (Some p)) "//" = false).
Proof.
  intros Hk. split; [now apply paths_length|].
  split; [intros i x; now apply paths_literal|].
  split; [intros i; now apply paths_placeholder|].
  split; [apply components_fold_join|].
  split; [unfold _BaseAPI._gen_url; now rewrite <- paths_take|].
  intros Hp Hpp Ht Ha. unfold _BaseAPI._gen_url.
  destruct (String.eqb_spec (scheme +:+ p) EmptyString) as [E|_];
    [now apply append_nonempty with (q := EmptyString) in Hp;
     destruct scheme, p|].
  destruct (String.eqb_spec p EmptyString) as [E|_]; [contradiction|].
  rewrite (paths_take t args).
  apply fold_join_clean; try assumption. now apply paths_clean.
Qed.

(** The user template with one argument too many: the URL is made of the
    base, the literal [user/], the first argument and the closing slash;
    the extra argument is dropped, and the path part of the URL has no
    doubled slash. *)
Lemma gen_url_enough_args_witness :
  _BaseAPI.paths UserAPI._api_uri [PStr "bob"; PStr "extra"] =
    [PStr "user/"; PStr "bob"; PStr "/"] /\
  components (_BaseAPI._gen_url UserAPI._api_uri [PStr "bob"; PStr "extra"]
                (Some "http://host/api/2/")) =
    ["http:"; "host"; "api"; "2"; "user"; "bob"] /\
  _BaseAPI._gen_url UserAPI._api_uri [PStr "bob"; PStr "extra"] None =
    _BaseAPI._gen_url UserAPI._api_uri [PStr "bob"] None /\
  _BaseAPI._gen_url UserAPI._api_uri [PStr "bob"; PStr "extra"]
    (Some "http://host/api/2/") =
    "http://" +:+ _BaseAPI._gen_url UserAPI._api_uri [PStr "bob"; PStr "extra"]
                    (Some "host/api/2/") /\
  str_contains (_BaseAPI._gen_url UserAPI._api_uri [PStr "bob"; PStr "extra"]
                  (Some "host/api/2/")) "//" = false.
Proof.
  split; [reflexivity|].
  split.
  - destruct (@gen_url_enough_args bracket_repr UserAPI._api_uri
                [PStr "bob"; PStr "extra"] (Some "http://host/api/2/")
                "http://" "host/api/2/") as (_ & _ & _ & Hc & _); [cbn; lia|].
    rewrite Hc. reflexivity.
  - destruct (@gen_url_enough_args bracket_repr UserAPI._api_uri
                [PStr "bob"; PStr "extra"] None
                "http://" "host/api/2/") as (_ & _ & _ & _ & Hextra & Hclean);
      [cbn; lia|].
    split; [exact Hextra|].
    apply Hclean; [discriminate | reflexivity | repeat constructor ..].
Defined.

(** C2 fails on the code: one placeholder and two arguments; the second
    argument is nowhere in the URL, and the first, which starts with two
    slashes, leaves a doubled slash in the path. *)
Lemma gen_url_enough_args_counterexample :
  placeholders UserAPI._api_uri <= length [PStr "//bob"; PStr "extra"] /\
  _BaseAPI._gen_url UserAPI._api_uri [PStr "//bob"; PStr "extra"] None =
    "http://" +:+ "localhost:8000/api/2/user//bob/" /\
  str_contains "localhost:8000/api/2/user//bob/" "extra" = false /\
  str_contains "localhost:8000/api/2/user//bob/" "//" = true.
Proof. repeat split; cbn; lia. Qed.

Lemma no_slash_nonempty_cons (s : string) :
  no_slash s = true -> s <> EmptyString ->
  exists c s', s = String c s' /\ Ascii.eqb c "/" = false.
Proof.
  destruct s as [|c s]; [contradiction|]. cbn [no_slash].
  intros [Hc _]%andb_prop _. exists c, s. split; [reflexivity|].
  now apply negb_true_iff.
Qed.

(** C7, as the code has it.  For an id [id] that is not empty and holds no
    slash, and an integer id [n], against the base [http://host/api/2/]:
    the user template gives [.../user/id/], also when the id comes with a
    leading or a trailing slash or the base without its trailing slash;
    the path-tree template, which has no segment after its placeholder,
    gives [.../path/tree/n] and [.../path/tree/id] with no slash at the
    end, unless the id itself brings one. *)
Theorem gen_url_user_and_tree `{Repr} (id : string) (n : Z) :
  no_slash id = true -> id <> EmptyString ->
  let user := "http://host/api/2/user/" +:+ id +:+ "/" in
  let tree := "http://host/api/2/path/tree/" +:+ id in
  let tree_n := "http://host/api/2/path/tree/" +:+ str_of_int n in
  _BaseAPI._gen_url UserAPI._api_uri [PStr id] (Some "http://host/api/2/") = user /\
  _BaseAPI._gen_url UserAPI._api_uri [PStr ("/" +:+ id)] (Some "http://host/api/2/") = user /\
  _BaseAPI._gen_url UserAPI._api_uri [PStr (id +:+ "/")] (Some "http://host/api/2/") = user /\
  _BaseAPI._gen_url UserAPI._api_uri [PStr id] (Some "http://host/api/2") = user /\
  _BaseAPI._gen_url PathTreeAPI._api_uri [PInt n] (Some "http://host/api/2/") = tree_n /\
  _BaseAPI._gen_url PathTreeAPI._api_uri [PInt n] (Some "http://host/api/2") = tree_n /\
  _BaseAPI._gen_url PathTreeAPI._api_uri [PStr id] (Some "http://host/api/2/") = tree /\
  _BaseAPI._gen_url PathTreeAPI._api_uri [PStr ("/" +:+ id)] (Some "http://host/api/2/") = tree /\
  _BaseAPI._gen_url PathTreeAPI._api_uri [PStr (id +:+ "/")] (Some "http://host/api/2/") =
    tree +:+ "/".
Proof.
  intros Hid Hne user tree tree_n.
  pose proof (no_slash_startswith id Hid) as Hstart.
  pose proof (no_slash_endswith id Hid) as Hend.
  destruct (no_slash_nonempty_cons id Hid Hne) as (c & id' & Eid & Hc).
  assert (Hstart' : startswith (id +:+ "/") "/" = false).
  { rewrite Eid, append_cons, startswith_slash. exact Hc. }
  assert (Hu : forall b, _BaseAPI.join b (PStr "user/") = b +:+ sep b +:+ "user/")
    by (intros b; now apply join_plain).
  assert (Ht : forall b, _BaseAPI.join b (PStr "path/tree/") = b +:+ sep b +:+ "path/tree/")
    by (intros b; now apply join_plain).
  assert (Hs : forall b, _BaseAPI.join b (PStr "/") = b +:+ sep b)
    by (intros b; change (PStr "/") with (PStr (String "/" EmptyString));
        rewrite join_slashed; cbn [String.eqb]; now str_norm).
  unfold _BaseAPI._gen_url, UserAPI._api_uri, PathTreeAPI._api_uri.
  cbn [String.eqb Ascii.eqb Bool.eqb _BaseAPI.paths fold_left].
  change ("/" +:+ id) with (String "/" id).
  rewrite !Hu, !Ht, !Hs, !join_int, !join_slashed, !join_plain by assumption.
  assert (Eb : String.eqb id "/" = false).
  { rewrite Eid. cbn. rewrite Hc. reflexivity. }
  rewrite Eb.
  change (sep "http://host/api/2/") with EmptyString.
  change (sep "http://host/api/2") with "/".
  str_norm.
  change (sep "http://host/api/2/user/") with EmptyString.
  change (sep "http://host/api/2/path/tree/") with EmptyString.
  str_norm.
  rewrite !sep_prefix
    by (repeat apply append_nonempty; first [assumption | discriminate]).
  change (sep "/") with EmptyString. unfold sep. rewrite Hend. str_norm.
  repeat split; reflexivity.
Qed.

(** The user id of the spec and the id 42. *)
Lemma gen_url_user_and_tree_witness :
  _BaseAPI._gen_url UserAPI._api_uri [PStr "bobafett"] (Some "http://host/api/2/") =
    "http://host/api/2/user/bobafett/" /\
  _BaseAPI._gen_url UserAPI._api_uri [PStr "/bobafett"] (Some "http://host/api/2") =
    "http://host/api/2/user/bobafett/" /\
  _BaseAPI._gen_url PathTreeAPI._api_uri [PInt 42] (Some "http://host/api/2/") =
    "http://host/api/2/path/tree/42".
Proof.
  destruct (gen_url_user_and_tree "bobafett" 42) as (Hu & _ & _ & _ & Ht & _).
  - reflexivity.
  - discriminate.
  - split; [exact Hu | split; [reflexivity | exact Ht]].
Defined.

(** C7 fails on the code: the path-tree URL for the id 42 has no slash at
    its end. *)
Lemma gen_url_user_and_tree_counterexample :
  _BaseAPI._gen_url PathTreeAPI._api_uri [PInt 42] (Some "http://host/api/2/") =
    "http://host/api/2/path/tree/42" /\
  "http://host/api/2/path/tree/42" <> "http://host/api/2/path/tree/42/".
Proof. split; [reflexivity | discriminate]. Qed.

(** ** Traces *)

Lemma add_events_nil (w : World) : add_events w [] = w.
Proof. destruct w. unfold add_events. cbn. now rewrite app_nil_r. Qed.

Lemma add_events_app (w : World) (a b : list Event) :
  add_events (add_events w a) b = add_events w (a ++ b).
Proof. unfold add_events. cbn. now rewrite <- app_assoc. Qed.

Lemma sent_app (m : Method) (a b : list Event) : sent m (a ++ b) = sent m a ++ sent m b.
Proof.
  induction a as [|[rq rs|s|d c] a IH]; cbn; [reflexivity | | exact IH | exact IH].
  destruct (method_eqb (method rq) m); cbn; now rewrite IH.
Qed.

Lemma sent_poll_events (url : PyVal) (ct : Z) (evs : list Event) :
  Forall (poll_event url ct) evs ->
  sent POST evs = [] /\ Forall (fun p => fst p = poll_request url) (sent GET evs).
Proof.
  induction 1 as [|e evs [[r ->]| ->] _ [IHp IHg]]; cbn; auto.
Qed.

(** ** The poll loop *)

Section poll_facts.
Context `{Transport}.

Lemma session_get_run (url params : PyVal) (w : World) :
  session_get url params w =
  (Ok (send (trace w) (mkRequest GET url PNone params)),
   add_events w [Sent (mkRequest GET url PNone params)
                   (send (trace w) (mkRequest GET url PNone params))]).
Proof. reflexivity. Qed.

Lemma last_response_cons_get (url : PyVal) (r : Requests.Response)
    (evs : list Event) (default : option Requests.Response) :
  last_response (Sent (poll_request url) r :: evs) default =
  last_response evs (Some r).
Proof.
  unfold last_response. cbn [sent poll_request method method_eqb].
  rewrite last_cons. destruct (last (sent GET evs)) as [[? ?]|]; reflexivity.
Qed.

Lemma last_response_cons_sleep (s : Z) (evs : list Event)
    (default : option Requests.Response) :
  last_response (Slept s :: evs) default = last_response evs default.
Proof. reflexivity. Qed.

(** A run of the loop: the events it adds, how many reads it makes, what
    it returns or raises, and that a read answered with a status other
    than 200 is the last event. *)
Lemma poll_loop_run (n : nat) (url : PyVal) (ct : Z) :
  forall (resp : option Requests.Response) (w : World),
  exists evs res,
    PathOperAPI.poll_loop n url ct resp w = (res, add_events w evs) /\
    Forall (poll_event url ct) evs /\
    length (sent GET evs) <= n /\
    (0 < n -> 0 < length (sent GET evs)) /\
    match res with
    | Ok r' => r' = last_response evs resp
    | Raise e =>
        exists r, last_response evs resp = Some r /\
                  Requests.status_code r = 200%Z /\
                  PathOperAPI.result_status r = Raise e
    end /\
    (forall pre rq r post,
        evs = pre ++ Sent rq r :: post -> Requests.status_code r <> 200%Z ->
        post = [] /\ res = Ok (Some r)).
Proof.
  induction n as [|n IH]; intros resp w.
  - exists [], (Ok resp). rewrite add_events_nil.
    split6; cbn; try lia; try reflexivity; [constructor|].
    intros pre rq r post E; now destruct pre.
  - cbn [PathOperAPI.poll_loop]. unfold bind at 1. rewrite session_get_run.
    fold (poll_request url).
    set (r := send (trace w) (poll_request url)).
    set (w1 := add_events w [Sent (poll_request url) r]).
    assert (Hone : Forall (poll_event url ct) [Sent (poll_request url) r])
      by (constructor; [left; now exists r | constructor]).
    assert (Hlast : forall pre rq r0 post,
               [Sent (poll_request url) r] = pre ++ Sent rq r0 :: post ->
               post = [] /\ r0 = r).
    { intros [|x pre] rq r0 post E; cbn in E.
      - now injection E as _ <- <-.
      - injection E as _ E. now destruct pre. }
    destruct (Requests.status_code r =? 200)%Z eqn:Es; cbn [negb].
    2:{ exists [Sent (poll_request url) r], (Ok (Some r)).
        split6; cbn; try lia; try assumption; try reflexivity.
        intros pre rq r0 post E Hs; destruct (Hlast _ _ _ _ E) as [-> ->].
        split; reflexivity. }
    apply Z.eqb_eq in Es.
    unfold bind at 1, lift at 1.
    destruct (PathOperAPI.result_status r) as [st|e] eqn:Est.
    2:{ exists [Sent (poll_request url) r], (Raise e).
        split6; cbn; try lia; try assumption; try reflexivity.
        - exists r. split; [reflexivity | split; assumption].
        - intros pre rq r0 post E Hs. destruct (Hlast _ _ _ _ E) as [_ ->].
          contradiction. }
    destruct (eq_str st "SUCCESS") eqn:Esucc.
    { exists [Sent (poll_request url) r], (Ok (Some r)).
      split6; cbn; try lia; try assumption; try reflexivity.
      intros pre rq r0 post E Hs; destruct (Hlast _ _ _ _ E) as [-> ->].
      split; reflexivity. }
    unfold bind at 1, time_sleep at 1.
    change (mkWorld (environ w1) (trace w1 ++ [Slept ct]) (files w1))
      with (add_events w1 [Slept ct]).
    destruct (IH (Some r) (add_events w1 [Slept ct]))
      as (evs & res & Erun & Hevs & Hle & Hpos & Hres & Hnon).
    exists (Sent (poll_request url) r :: Slept ct :: evs), res.
    split6.
    + rewrite Erun. unfold w1. now rewrite !add_events_app.
    + constructor; [left; now exists r|]. constructor; [now right | assumption].
    + cbn. lia.
    + cbn. lia.
    + rewrite last_response_cons_get, last_response_cons_sleep. exact Hres.
    + intros [|x [|y pre]] rq r0 post E Hs; cbn in E.
      * injection E as _ <- _. contradiction.
      * injection E as _ E. discriminate E.
      * injection E as _ _ E. now apply (Hnon pre rq r0 post).
Qed.

End poll_facts.

Section poll_claims.
Context `{Transport}.

Lemma poll_run (url : PyVal) (checks ct : Z) (w : World) :
  exists evs res,
    PathOperAPI.poll_loop (Z.to_nat checks) url ct None w = (res, add_events w evs) /\
    PathOperAPI.poll url checks ct w =
      (match res with
       | Ok (Some r) => Ok r
       | Ok None => Raise (UnboundLocalError "response")
       | Raise e => Raise e
       end, add_events w evs).
Proof.
  destruct (poll_loop_run (Z.to_nat checks) url ct None w) as (evs & res & E & _).
  exists evs, res. split; [exact E|].
  unfold PathOperAPI.poll, bind. rewrite E.
  destruct res as [[r|]|e]; reflexivity.
Qed.

(** While every read is answered "pending", the loop uses its whole
    budget. *)
Lemma poll_loop_pending (url : PyVal) (ct : Z) (n : nat) :
  (forall h, is_pending (send h (poll_request url))) ->
  forall (resp : option Requests.Response) (w : World),
  exists evs,
    PathOperAPI.poll_loop n url ct resp w = (Ok (last_response evs resp), add_events w evs) /\
    length (sent GET evs) = n /\
    (forall r, resp = None \/ (exists r0, resp = Some r0 /\ is_pending r0) ->
               last_response evs resp = Some r -> is_pending r).
Proof.
  intros Hp. induction n as [|n IH]; intros resp w.
  - exists []. rewrite add_events_nil. split; [reflexivity|]. split; [reflexivity|].
    cbn. intros r [->|(r0 & -> & Hr0)]; [discriminate | now intros [= <-]].
  - cbn [PathOperAPI.poll_loop]. unfold bind at 1. rewrite session_get_run.
    fold (poll_request url).
    set (r := send (trace w) (poll_request url)).
    destruct (Hp (trace w)) as [Hs Hst]. fold r in Hs, Hst.
    rewrite Hs. cbn [Z.eqb Pos.eqb negb].
    unfold bind at 1, lift at 1. rewrite Hst. cbn [eq_str String.eqb Ascii.eqb Bool.eqb].
    unfold bind at 1, time_sleep at 1.
    set (w1 := add_events w [Sent (poll_request url) r]).
    change (mkWorld (environ w1) (trace w1 ++ [Slept ct]) (files w1))
      with (add_events w1 [Slept ct]).
    destruct (IH (Some r) (add_events w1 [Slept ct])) as (evs & E & Hn & Hl).
    exists (Sent (poll_request url) r :: Slept ct :: evs).
    rewrite last_response_cons_get, last_response_cons_sleep.
    split; [|split].
    + rewrite E. unfold w1. now rewrite !add_events_app.
    + cbn. now rewrite Hn.
    + intros r' _. apply Hl. right. exists r. split; [reflexivity | now split].
Qed.

End poll_claims.

(** C3.  With the default budget of 5: when every read of the poll URL
    is answered 200 and PENDING, [poll] makes exactly 5 reads and returns
    the last response, which is a pending one, and raises nothing; when
    the first two reads are answered 200 and PENDING and the third 200 and
    SUCCESS, it makes exactly 3 reads and returns the third response. *)
Theorem poll_pending_and_success `{Transport} (url : PyVal) (w : World) :
  let rq := poll_request url in
  ((forall h, is_pending (send h rq)) ->
   exists evs r,
     PathOperAPI.poll url 5 2 w = (Ok r, add_events w evs) /\
     length (sent GET evs) = 5 /\
     last_response evs None = Some r /\
     is_pending r) /\
  (forall r1 r2 r3,
     send (trace w) rq = r1 ->
     send (trace w ++ [Sent rq r1; Slept 2]) rq = r2 ->
     send (trace w ++ [Sent rq r1; Slept 2; Sent rq r2; Slept 2]) rq = r3 ->
     is_pending r1 -> is_pending r2 -> is_success r3 ->
     exists evs,
       PathOperAPI.poll url 5 2 w = (Ok r3, add_events w evs) /\
       length (sent GET evs) = 3 /\
       evs = [Sent rq r1; Slept 2; Sent rq r2; Slept 2; Sent rq r3]).
Proof.
  intros rq. split.
  - intros Hp.
    destruct (poll_loop_pending url 2 5 Hp None w) as (evs & E & Hn & Hl).
    destruct (last_response evs None) as [r|] eqn:El.
    + exists evs, r. unfold PathOperAPI.poll, bind.
      change (Z.to_nat 5) with 5. rewrite E.
      split; [reflexivity|]. split; [exact Hn|]. split; [exact El|].
      apply Hl; [now left | reflexivity].
    + unfold last_response in El. destruct (sent GET evs) as [|p l]; [discriminate|].
      rewrite last_cons in El. destruct (last l) as [[? ?]|], p; discriminate.
  - intros r1 r2 r3 E1 E2 E3 [Hs1 Hp1] [Hs2 Hp2] [Hs3 Hp3].
    exists [Sent rq r1; Slept 2; Sent rq r2; Slept 2; Sent rq r3].
    split; [|split; reflexivity].
    unfold PathOperAPI.poll. change (Z.to_nat 5) with 5.
    unfold bind at 1. cbn [PathOperAPI.poll_loop].
    unfold bind at 1. rewrite session_get_run. fold (poll_request url). fold rq.
    rewrite E1, Hs1. cbn [Z.eqb Pos.eqb negb].
    unfold bind at 1, lift at 1. rewrite Hp1.
    cbn [eq_str String.eqb Ascii.eqb Bool.eqb].
    unfold bind at 1, time_sleep at 1.
    unfold bind at 1. rewrite session_get_run. fold (poll_request url). fold rq.
    cbn [trace add_events]. rewrite <- !app_assoc. cbn [app].
    rewrite E2, Hs2. cbn [Z.eqb Pos.eqb negb].
    unfold bind at 1, lift at 1. rewrite Hp2.
    cbn [eq_str String.eqb Ascii.eqb Bool.eqb].
    unfold bind at 1, time_sleep at 1.
    unfold bind at 1. rewrite session_get_run. fold (poll_request url). fold rq.
    cbn [trace add_events]. rewrite <- !app_assoc. cbn [app].
    rewrite E3, Hs3. cbn [Z.eqb Pos.eqb negb].
    unfold bind at 1, lift at 1. rewrite Hp3.
    cbn [eq_str String.eqb Ascii.eqb Bool.eqb].
    unfold ret, add_events. cbn [environ trace files].
    rewrite <- !app_assoc. reflexivity.
Qed.

(** A server that always answers "pending", and one that answers
    "pending" twice and then "success". *)
Lemma poll_pending_and_success_witness :
  (exists evs r,
     @PathOperAPI.poll always_pending (PStr "http://host/op/1/") 5 2 w0 =
       (Ok r, add_events w0 evs) /\
     length (sent GET evs) = 5 /\
     last_response evs None = Some r /\
     is_pending r) /\
  (exists evs,
     @PathOperAPI.poll pending_twice (PStr "http://host/op/1/") 5 2 w0 =
       (Ok success_response, add_events w0 evs) /\
     length (sent GET evs) = 3 /\
     evs = [Sent (poll_request (PStr "http://host/op/1/")) pending_response; Slept 2;
            Sent (poll_request (PStr "http://host/op/1/")) pending_response; Slept 2;
            Sent (poll_request (PStr "http://host/op/1/")) success_response]).
Proof.
  split.
  - pose proof (@poll_pending_and_success always_pending (PStr "http://host/op/1/") w0) as T.
    cbv zeta in T. destruct T as [T _]. apply T.
    intros h. split; reflexivity.
  - pose proof (@poll_pending_and_success pending_twice (PStr "http://host/op/1/") w0) as T.
    cbv zeta in T. destruct T as [_ T].
    apply (T pending_response pending_response success_response);
      try reflexivity; split; reflexivity.
Defined.

(** C4.  A read that is answered with a status other than 200 is the
    last thing [poll] does, and its response is what [poll] returns.  And
    when the server answers every request with 503, [PathAPI.remove] sends
    its submission once and makes at most one read, whatever the response
    processor does with the 503. *)
Theorem poll_stops_on_non_200 `{Repr} `{Transport} `{Decorators} :
  (forall url checks ct w res w' pre rq r post,
     PathOperAPI.poll url checks ct w = (res, w') ->
     trace w' = trace w ++ pre ++ Sent rq r :: post ->
     Requests.status_code r <> 200%Z ->
     post = [] /\ res = Ok r) /\
  (forall path w,
     (forall h rq, Requests.status_code (send h rq) = 503%Z) ->
     exists evs res,
       PathAPI.remove path w = (res, add_events w evs) /\
       length (sent POST evs) = 1 /\
       length (sent GET evs) <= 1).
Proof.
  split.
  - intros url checks ct w res w' pre rq r post E Ht Hs.
    destruct (poll_loop_run (Z.to_nat checks) url ct None w)
      as (evs & res0 & E0 & _ & _ & _ & _ & Hnon).
    unfold PathOperAPI.poll, bind in E. rewrite E0 in E.
    assert (w' = add_events w evs) as ->
      by (destruct res0 as [[?|]|?]; now injection E as _ <-).
    cbn [add_events trace] in Ht. apply app_inv_head in Ht.
    destruct (Hnon pre rq r post Ht Hs) as [-> ->].
    split; [reflexivity|]. unfold ret in E. now injection E as <-.
  - intros path w H503.
    unfold PathAPI.remove, PathOperAPI.remove, _BaseAPI._create.
    unfold bind at 1. unfold bind at 1.
    unfold session_post, session_send.
    set (rq := mkRequest POST _ _ _).
    set (w1 := mkWorld _ _ _). change w1 with (add_events w [Sent rq (send (trace w) rq)]).
    clear w1. set (w1 := add_events w _).
    unfold lift at 1.
    destruct (response_processor (send (trace w) rq)) as [r|e].
    2:{ eexists _, _. split; [reflexivity|]. cbn. split; lia. }
    destruct (Requests.status_code r =? 200)%Z.
    2:{ eexists _, _. split; [reflexivity|]. cbn. split; lia. }
    unfold bind at 1, lift at 1.
    destruct (getitem (Requests.json r) "url") as [url|e].
    2:{ eexists _, _. split; [reflexivity|]. cbn. split; lia. }
    unfold PathOperAPI.poll. change (Z.to_nat 5) with 5.
    cbn [PathOperAPI.poll_loop]. unfold bind at 1, bind at 1.
    rewrite session_get_run, H503. cbn [Z.eqb Pos.eqb negb].
    unfold ret, w1. rewrite add_events_app.
    eexists _, _. split; [reflexivity|]. cbn. split; lia.
Qed.

(** A server that answers 503 to everything: [poll] returns the first
    503, and [PathAPI.remove] stops after its submission. *)
Lemma poll_stops_on_non_200_witness :
  (([] : list Event) = [] /\
   Ok (Requests.mkResponse 503 None []) = Ok (Requests.mkResponse 503 None [])) /\
  (exists evs res,
     @PathAPI.remove bracket_repr always_503 spec_response_processor (PStr "/tmp/x") w0 =
       (res, add_events w0 evs) /\
     length (sent POST evs) = 1 /\
     length (sent GET evs) <= 1).
Proof.
  destruct (@poll_stops_on_non_200 bracket_repr always_503 spec_response_processor)
    as [Hpoll Hremove].
  split.
  - apply (Hpoll (PStr "http://host/op/1/") 5%Z 2%Z w0
             (Ok (Requests.mkResponse 503 None []))
             (add_events w0 [Sent (poll_request (PStr "http://host/op/1/"))
                               (Requests.mkResponse 503 None [])])
             [] (poll_request (PStr "http://host/op/1/"))
             (Requests.mkResponse 503 None []) []).
    + reflexivity.
    + reflexivity.
    + cbn. lia.
  - apply Hremove. intros h rq. reflexivity.
Defined.

(** C10, as the code has it.  With [checks <= 0] the loop body never
    runs: no read is made and the [return] finds [response] unbound.  With
    [checks >= 1] there are between 1 and [checks] reads, all of the poll
    URL, and [poll] either returns the response of the last read or raises
    what the lookup of [result] and [status] raises on that last response,
    a response with status 200 whose body lacks them. *)
Theorem poll_checks `{Transport} (url : PyVal) (checks ct : Z) (w : World) :
  ((checks <= 0)%Z ->
   PathOperAPI.poll url checks ct w = (Raise (UnboundLocalError "response"), w)) /\
  ((1 <= checks)%Z ->
   exists evs res,
     PathOperAPI.poll url checks ct w = (res, add_events w evs) /\
     Forall (poll_event url ct) evs /\
     (1 <= Z.of_nat (length (sent GET evs)) <= checks)%Z /\
     match res with
     | Ok r => last_response evs None = Some r
     | Raise e =>
         exists r, last_response evs None = Some r /\
                   Requests.status_code r = 200%Z /\
                   PathOperAPI.result_status r = Raise e
     end).
Proof.
  split.
  - intros Hc. unfold PathOperAPI.poll.
    replace (Z.to_nat checks) with 0 by lia. reflexivity.
  - intros Hc.
    destruct (poll_loop_run (Z.to_nat checks) url ct None w)
      as (evs & res & E & Hevs & Hle & Hpos & Hres & _).
    assert (Hone : 0 < length (sent GET evs)) by (apply Hpos; lia).
    unfold PathOperAPI.poll, bind. rewrite E.
    destruct res as [[r|]|e].
    + exists evs, (Ok r). split; [reflexivity|]. split; [assumption|].
      split; [lia | now symmetry].
    + exfalso. unfold last_response in Hres.
      destruct (sent GET evs) as [|p l]; [cbn in Hone; lia|].
      rewrite last_cons in Hres. destruct (last l) as [[? ?]|], p; discriminate.
    + exists evs, (Raise e). split; [reflexivity|]. split; [assumption|].
      split; [lia | assumption].
Qed.

(** No check at all, and five checks against a server that always
    answers "pending". *)
Lemma poll_checks_witness :
  @PathOperAPI.poll always_pending (PStr "http://host/op/1/") 0 2 w0 =
    (Raise (UnboundLocalError "response"), w0) /\
  (exists evs res,
     @PathOperAPI.poll always_pending (PStr "http://host/op/1/") 5 2 w0 =
       (res, add_events w0 evs) /\
     Forall (poll_event (PStr "http://host/op/1/") 2) evs /\
     (1 <= Z.of_nat (length (sent GET evs)) <= 5)%Z /\
     match res with
     | Ok r => last_response evs None = Some r
     | Raise e =>
         exists r, last_response evs None = Some r /\
                   Requests.status_code r = 200%Z /\
                   PathOperAPI.result_status r = Raise e
     end).
Proof.
  split.
  - apply (@poll_checks always_pending (PStr "http://host/op/1/") 0 2 w0). lia.
  - apply (@poll_checks always_pending (PStr "http://host/op/1/") 5 2 w0). lia.
Defined.

(** C10 fails on the code: one check, and a server whose 200 answer is
    the empty JSON object; [poll] raises [KeyError] after its read and
    returns no response. *)
Lemma poll_checks_counterexample :
  (1 <= 1)%Z /\
  @PathOperAPI.poll empty_object (PStr "http://host/op/1/") 1 2 w0 =
    (Raise (KeyError "result"),
     add_events w0 [Sent (poll_request (PStr "http://host/op/1/"))
                      (json_response 200 (PDict []))]).
Proof. split; [lia | reflexivity]. Qed.

(** C5.  [PathAPI.remove] sends exactly one POST, the submission, to the
    [remove] URL of the oper endpoint with the path as its data, and no
    other POST.  When the response processor hands back a response with
    status 200 whose body holds a [url], the rest of the run is [poll] on
    that URL with its defaults: at least one read, every read on that URL,
    and a returned value that is the response of the last read.  When the
    status is not 200 nothing is read and the submission response is
    returned; an exception of the response processor, or of the lookup of
    [url], leaves [remove] before any read. *)
Theorem remove_submits_then_polls `{Repr} `{Transport} `{Decorators}
    (path : PyVal) (w : World) :
  let rq := mkRequest POST (PStr "http://localhost:8000/api/2/path/oper/remove/")
              (PDict [("path", path)]) PNone in
  let sub := send (trace w) rq in
  let w1 := add_events w [Sent rq sub] in
  exists evs res,
    PathAPI.remove path w = (res, add_events w1 evs) /\
    sent POST evs = [] /\
    match response_processor sub with
    | Raise e => evs = [] /\ res = Raise e
    | Ok r =>
        if (Requests.status_code r =? 200)%Z then
          match getitem (Requests.json r) "url" with
          | Ok url =>
              PathOperAPI.poll url 5 2 w1 = (res, add_events w1 evs) /\
              Forall (poll_event url 2) evs /\
              1 <= length (sent GET evs) /\
              (forall r', res = Ok r' -> last_response evs None = Some r')
          | Raise e => evs = [] /\ res = Raise e
          end
        else evs = [] /\ res = Ok r
    end.
Proof.
  intros rq sub w1.
  unfold PathAPI.remove, PathOperAPI.remove, _BaseAPI._create.
  unfold bind at 1. unfold bind at 1.
  unfold session_post, session_send.
  change (_BaseAPI._gen_url PathOperAPI._api_uri [PStr "remove/"] None)
    with "http://localhost:8000/api/2/path/oper/remove/".
  fold rq. fold sub.
  change (mkWorld (environ w) (trace w ++ [Sent rq sub]) (files w)) with w1.
  unfold lift at 1.
  destruct (response_processor sub) as [r|e].
  2:{ exists [], (Raise e). rewrite add_events_nil. now split_and!. }
  destruct (Requests.status_code r =? 200)%Z.
  2:{ exists [], (Ok r). rewrite add_events_nil. now split_and!. }
  unfold bind at 1, lift at 1.
  destruct (getitem (Requests.json r) "url") as [url|e].
  2:{ exists [], (Raise e). rewrite add_events_nil. now split_and!. }
  destruct (poll_checks url 5 2 w1) as [_ Hpoll].
  destruct Hpoll as (evs & res & E & Hevs & Hn & Hres); [lia|].
  exists evs, res. split; [exact E|].
  split; [now apply (sent_poll_events url 2)|].
  split; [exact E|]. split; [exact Hevs|]. split; [lia|].
  intros r' ->. exact Hres.
Qed.

(** ** Download *)




Lemma written_writes_other (p dst : string) (cs : list (list Byte.byte)) :
  p <> dst -> written p (map (Wrote dst) cs) = [].
Proof.
  intros Hp. induction cs as [|c cs IH]; cbn; [reflexivity|].
  destruct (String.eqb_spec dst p) as [->|_]; [contradiction | exact IH].
Qed.

Lemma sent_writes (m : Method) (dst : string) (cs : list (list Byte.byte)) :
  sent m (map (Wrote dst) cs) = [].
Proof. induction cs as [|c cs IH]; cbn; [reflexivity | exact IH]. Qed.

Lemma sleeps_writes (dst : string) (cs : list (list Byte.byte)) :
  sleeps (map (Wrote dst) cs) = [].
Proof. induction cs as [|c cs IH]; cbn; [reflexivity | exact IH]. Qed.

(** The loop of writes: one [write] per chunk, in order, onto what the
    file holds, up to the first write that the file system refuses. *)
Lemma write_chunks_run `{Repr} `{Transport} `{Decorators} `{Disk}
    (dst : string) (cs : list (list Byte.byte)) :
  forall (w : World) (old : list Byte.byte),
  files w !! dst = Some old ->
  exists done rest fs,
    cs = done ++ rest /\
    fs !! dst = Some (old ++ concat done) /\
    (forall p, p <> dst -> fs !! p = files w !! p) /\
    let w' := mkWorld (environ w) (trace w ++ map (Wrote dst) done) fs in
    (rest = [] /\ PathAPI.write_chunks dst cs w = (Ok tt, w')) \/
    (exists c rest', rest = c :: rest' /\ can_write w' dst c = false /\
       PathAPI.write_chunks dst cs w = (Raise (IOError dst), w')).
Proof.
  induction cs as [|c cs IH]; intros w old Hold.
  - exists [], [], (files w). cbn. rewrite !app_nil_r. destruct w.
    split; [reflexivity|]. split; [exact Hold|]. split; [reflexivity|]. now left.
  - destruct (can_write w dst c) eqn:Ec.
    + set (w1 := mkWorld (environ w) (trace w ++ [Wrote dst c])
                   (<[dst := old ++ c]> (files w))).
      assert (Estep : PathAPI.write_chunks dst (c :: cs) w =
                      PathAPI.write_chunks dst cs w1).
      { cbn [PathAPI.write_chunks]. unfold bind, file_write. now rewrite Ec, Hold. }
      destruct (IH w1 (old ++ c)) as (done & rest & fs & Hsplit & Hf & Ho & Hrun).
      { unfold w1. cbn. apply lookup_insert_eq. }
      exists (c :: done), rest, fs.
      split; [cbn [app]; now rewrite Hsplit|].
      split; [cbn [concat]; now rewrite Hf, <- app_assoc|].
      split.
      { intros p Hp. rewrite (Ho p Hp). unfold w1. cbn. now apply lookup_insert_ne. }
      rewrite Estep. unfold w1 in Hrun at 1 2. cbn [environ trace] in Hrun.
      rewrite <- app_assoc in Hrun. exact Hrun.
    + assert (Estep : PathAPI.write_chunks dst (c :: cs) w = (Raise (IOError dst), w)).
      { cbn [PathAPI.write_chunks]. unfold bind, file_write. now rewrite Ec. }
      exists [], (c :: cs), (files w). cbn [map concat app]. rewrite !app_nil_r.
      split; [reflexivity|]. split; [exact Hold|]. split; [reflexivity|].
      right. exists c, cs. rewrite Estep. destruct w. cbn in *. now rewrite Ec.
Qed.


Lemma lift_ok_inv {A} (r : result A) (w w' : World) (a : A) :
  lift r w = (Ok a, w') -> r = Ok a /\ w' = w.
Proof. unfold lift. now intros [= -> ->]. Qed.

Lemma read_files `{Repr} `{Transport} `{Decorators} (uri : list (option string))
    (args : list PyVal) (baseurl : option string) (params : PyVal)
    (w w' : World) (res : result Requests.Response) :
  _BaseAPI._read uri args baseurl params w = (res, w') -> files w' = files w.
Proof.
  unfold _BaseAPI._read, bind, session_get, session_send, lift.
  now intros [= _ <-].
Qed.

(** A run of [download], step by step. *)
Lemma download_run `{Repr} `{Transport} `{Decorators} `{Disk}
    (dst : string) (src : PyVal) (w : World) :
  let a1 := send (trace w) (tree_request src) in
  match response_processor a1 with
  | Raise e =>
      PathAPI.download dst src w = (Raise e, add_events w [Sent (tree_request src) a1])
  | Ok tree =>
      match getitem (Requests.json tree) "id" with
      | Raise e =>
          PathAPI.download dst src w =
          (Raise e, add_events w [Sent (tree_request src) a1])
      | Ok id =>
          let a2 := send (trace w ++ [Sent (tree_request src) a1]) (data_request id) in
          let reads := [Sent (tree_request src) a1; Sent (data_request id) a2] in
          match response_processor a2 with
          | Raise e => PathAPI.download dst src w = (Raise e, add_events w reads)
          | Ok r =>
              if (Requests.status_code r =? 200)%Z then
                if can_open (add_events w reads) dst then
                  exists done rest fs,
                    Requests.iter_content r (16 * 1024) = done ++ rest /\
                    fs !! dst = Some (concat done) /\
                    (forall p, p <> dst -> fs !! p = files w !! p) /\
                    let w' := mkWorld (environ w)
                                (trace w ++ reads ++ map (Wrote dst) done) fs in
                    (rest = [] /\ PathAPI.download dst src w = (Ok r, w')) \/
                    (exists c rest', rest = c :: rest' /\
                       can_write w' dst c = false /\
                       PathAPI.download dst src w = (Raise (IOError dst), w'))
                else
                  PathAPI.download dst src w = (Raise (IOError dst), add_events w reads)
              else PathAPI.download dst src w = (Ok r, add_events w reads)
          end
      end
  end.
Proof.
  intros a1.
  assert (Hstart : PathAPI.download dst src w =
            bind (lift (response_processor a1))
              (fun tree =>
                 bind (lift (getitem (Requests.json tree) "id"))
                   (fun id =>
                      bind (PathDataAPI.read [id])
                        (fun response =>
                           if (Requests.status_code response =? 200)%Z then
                             bind (open_wb dst) (fun _ =>
                             bind (PathAPI.write_chunks dst
                                     (Requests.iter_content response (16 * 1024)))
                               (fun _ => ret response))
                           else ret response)))
              (add_events w [Sent (tree_request src) a1])) by reflexivity.
  destruct (response_processor a1) as [tree|e] eqn:E1.
  2:{ rewrite Hstart. unfold bind at 1, lift at 1. now rewrite ?E1. }
  destruct (getitem (Requests.json tree) "id") as [id|e] eqn:E2.
  2:{ rewrite Hstart. unfold bind at 1, lift at 1. rewrite ?E1.
      unfold bind at 1, lift at 1. now rewrite ?E2. }
  cbv zeta. set (a2 := send _ (data_request id)).
  set (w2 := add_events w [Sent (tree_request src) a1; Sent (data_request id) a2]).
  assert (Hmid : PathAPI.download dst src w =
            bind (lift (response_processor a2))
              (fun response =>
                 if (Requests.status_code response =? 200)%Z then
                   bind (open_wb dst) (fun _ =>
                   bind (PathAPI.write_chunks dst
                           (Requests.iter_content response (16 * 1024)))
                     (fun _ => ret response))
                 else ret response) w2).
  { rewrite Hstart. unfold bind at 1, lift at 1. rewrite ?E1.
    unfold bind at 1, lift at 1. rewrite ?E2.
    unfold PathDataAPI.read, _BaseAPI._read.
    unfold bind at 1. unfold bind at 1. rewrite session_get_run.
    now rewrite add_events_app. }
  clear Hstart.
  destruct (response_processor a2) as [r|e] eqn:E3.
  2:{ rewrite Hmid. unfold bind at 1, lift at 1. now rewrite ?E3. }
  destruct (Requests.status_code r =? 200)%Z eqn:Es.
  2:{ rewrite Hmid. unfold bind at 1, lift at 1. rewrite ?E3. now rewrite ?Es. }
  assert (Hopen : PathAPI.download dst src w =
            bind (open_wb dst) (fun _ =>
            bind (PathAPI.write_chunks dst (Requests.iter_content r (16 * 1024)))
              (fun _ => ret r)) w2).
  { rewrite Hmid. unfold bind at 1, lift at 1. now rewrite ?E3, ?Es. }
  clear Hmid.
  destruct (can_open w2 dst) eqn:Eo.
  2:{ rewrite Hopen. unfold bind at 1, open_wb at 1. now rewrite Eo. }
  set (w3 := mkWorld (environ w)
               (trace w ++ [Sent (tree_request src) a1; Sent (data_request id) a2])
               (<[dst := []]> (files w))).
  assert (Hloop : PathAPI.download dst src w =
            bind (PathAPI.write_chunks dst (Requests.iter_content r (16 * 1024)))
              (fun _ => ret r) w3).
  { rewrite Hopen. unfold bind at 1, open_wb at 1. now rewrite Eo. }
  clear Hopen.
  destruct (write_chunks_run dst (Requests.iter_content r (16 * 1024)) w3 [])
    as (done & rest & fs & Hsplit & Hf & Ho & Hrun).
  { unfold w3. cbn. apply lookup_insert_eq. }
  exists done, rest, fs.
  split; [exact Hsplit|]. split; [exact Hf|].
  split.
  { intros p Hp. rewrite (Ho p Hp). unfold w3. cbn. apply lookup_insert_ne. congruence. }
  unfold w3 in Hrun. cbn [environ trace] in Hrun. rewrite <- app_assoc in Hrun.
  cbv zeta in Hrun |- *.
  destruct Hrun as [[Hrest Erun] | (c & rest' & Hrest & Hc & Erun)].
  - left. split; [exact Hrest|]. rewrite Hloop. unfold bind, w3. now rewrite Erun.
  - right. exists c, rest'. split; [exact Hrest|]. split; [exact Hc|].
    rewrite Hloop. unfold bind, w3. now rewrite Erun.
Qed.



(** ** Credentials *)

(** C8, as the code has it.  When at least one of the two arguments is
    set, [_get_auth] returns the pair as given and does not read the
    environment.  When both are [None] it reads [SMARTFILE_API_KEY] and
    [SMARTFILE_API_PASS]: with both set it returns them, with one missing
    it raises an exception.  [__init__] resolves credentials only when it
    is given no session.  None of this sends a request: the world is left
    as it was. *)
Theorem get_auth_resolution (api_key api_pass : PyVal) (w : World) :
  (is_none api_key && is_none api_pass = false ->
   _BaseAPI._get_auth api_key api_pass w = (Ok (api_key, api_pass), w)) /\
  (forall k p,
     api_key = PNone -> api_pass = PNone ->
     environ w !! "SMARTFILE_API_KEY" = Some k ->
     environ w !! "SMARTFILE_API_PASS" = Some p ->
     _BaseAPI._get_auth api_key api_pass w = (Ok (PStr k, PStr p), w)) /\
  (api_key = PNone -> api_pass = PNone ->
   environ w !! "SMARTFILE_API_KEY" = None \/
   environ w !! "SMARTFILE_API_PASS" = None ->
   exists msg,
     _BaseAPI._get_auth api_key api_pass w = (Raise (Exception msg), w)) /\
  (forall s, _BaseAPI.__init__ api_key api_pass (Some s) w = (Ok s, w)) /\
  (forall res w',
     _BaseAPI.__init__ api_key api_pass None w = (res, w') ->
     w' = w /\
     match _BaseAPI._get_auth api_key api_pass w with
     | (Ok a, _) => res = Ok (mkSession a)
     | (Raise e, _) => res = Raise e
     end).
Proof.
  split_and!.
  - intros Hn. unfold _BaseAPI._get_auth. now rewrite Hn.
  - intros k p -> -> Hk Hp.
    unfold _BaseAPI._get_auth, except_KeyError, bind, os_environ. cbn.
    now rewrite Hk, Hp.
  - intros -> -> Hmiss.
    unfold _BaseAPI._get_auth, except_KeyError, bind, os_environ, raise. cbn.
    destruct (environ w !! "SMARTFILE_API_KEY") as [k|]; [|now eexists].
    destruct Hmiss as [Hk|Hp]; [discriminate|]. rewrite Hp. now eexists.
  - reflexivity.
  - intros res w'. unfold _BaseAPI.__init__, bind.
    assert (Hw : snd (_BaseAPI._get_auth api_key api_pass w) = w).
    { unfold _BaseAPI._get_auth, except_KeyError, bind, os_environ, raise, ret.
      destruct (is_none api_key && is_none api_pass); [|reflexivity].
      destruct (environ w !! "SMARTFILE_API_KEY"); [|reflexivity].
      destruct (environ w !! "SMARTFILE_API_PASS"); reflexivity. }
    destruct (_BaseAPI._get_auth api_key api_pass w) as [[a|e] w1]; cbn in Hw;
      subst w1; unfold ret; now intros [= <- <-].
Qed.

(** Both arguments unset and both variables set; and one variable
    missing. *)
Lemma get_auth_resolution_witness :
  _BaseAPI._get_auth PNone PNone
    (mkWorld (<["SMARTFILE_API_KEY" := "key"]> (<["SMARTFILE_API_PASS" := "pass"]> ∅)) [] ∅) =
    (Ok (PStr "key", PStr "pass"),
     mkWorld (<["SMARTFILE_API_KEY" := "key"]> (<["SMARTFILE_API_PASS" := "pass"]> ∅)) [] ∅) /\
  (exists msg,
     _BaseAPI._get_auth PNone PNone (mkWorld (<["SMARTFILE_API_KEY" := "key"]> ∅) [] ∅) =
       (Raise (Exception msg), mkWorld (<["SMARTFILE_API_KEY" := "key"]> ∅) [] ∅)) /\
  _BaseAPI._get_auth (PStr "key") (PStr "pass") w0 = (Ok (PStr "key", PStr "pass"), w0).
Proof.
  split; [|split].
  - destruct (get_auth_resolution PNone PNone
                (mkWorld (<["SMARTFILE_API_KEY" := "key"]>
                            (<["SMARTFILE_API_PASS" := "pass"]> ∅)) [] ∅))
      as (_ & Henv & _).
    apply Henv; reflexivity.
  - destruct (get_auth_resolution PNone PNone
                (mkWorld (<["SMARTFILE_API_KEY" := "key"]> ∅) [] ∅))
      as (_ & _ & Hmiss & _).
    apply Hmiss; [reflexivity | reflexivity | right; reflexivity].
  - destruct (get_auth_resolution (PStr "key") (PStr "pass") w0) as (Hgiven & _).
    apply Hgiven. reflexivity.
Defined.

(** C8 fails on the code: a key without a secret and an empty
    environment, so that neither source yields both values; nothing is
    raised.  The same holds for no credentials at all beside a session. *)
Lemma get_auth_resolution_counterexample :
  environ w0 !! "SMARTFILE_API_KEY" = None /\
  environ w0 !! "SMARTFILE_API_PASS" = None /\
  _BaseAPI._get_auth (PStr "key") PNone w0 = (Ok (PStr "key", PNone), w0) /\
  _BaseAPI.__init__ (PStr "key") PNone None w0 =
    (Ok (mkSession (PStr "key", PNone)), w0) /\
  _BaseAPI.__init__ PNone PNone (Some (mkSession (PNone, PNone))) w0 =
    (Ok (mkSession (PNone, PNone)), w0).
Proof. repeat split. Qed.

(** ** Response errors *)

(** The fallback of [ResponseError.__init__] covers a body that decodes
    to a false value or to a container without [detail]. *)
Lemma response_error_fallback (r : Requests.Response) (json : PyVal) :
  Requests.decoded r = Some json ->
  truthy json = false \/ contains json "detail" = Ok false ->
  ResponseError.__init__ r =
  Ok (mkResponseError r (Requests.status_code r) (PStr ResponseError.default_detail)).
Proof.
  intros Hd Hj. unfold ResponseError.__init__, json_call. rewrite Hd. cbn.
  destruct (truthy json); [|reflexivity]. cbn.
  destruct Hj as [Hj|Hj]; [discriminate | now rewrite Hj].
Qed.

(** C6 on the code.  For a response whose body is empty or is not JSON
    text, whatever its status, [ResponseError.__init__] raises
    [ValueError] out of [response.json()]: the fallback is never reached
    and no [ResponseError] is built. *)
Theorem response_error_undecodable_body (status : Z) (body : list Byte.byte) :
  ResponseError.__init__ (Requests.mkResponse status None body) = Raise ValueError /\
  spec_response_processor (Requests.mkResponse 500 None body) = Raise ValueError.
Proof. split; reflexivity. Qed.

(** ** A whole run *)

(** [PathAPI.remove] against a server that accepts the submission and
    reports success at the third read: one POST, three reads with a sleep
    of 2 seconds after each pending answer, and the success response as
    the result. *)
Example remove_run :
  @PathAPI.remove bracket_repr remove_server spec_response_processor (PStr "/docs/old.txt") w0 =
  (Ok success_response,
   add_events w0
     [Sent (mkRequest POST (PStr "http://localhost:8000/api/2/path/oper/remove/")
              (PDict [("path", PStr "/docs/old.txt")]) PNone)
           (json_response 200 (PDict [("url", PStr "http://host/op/1/")]));
      Sent (poll_request (PStr "http://host/op/1/")) pending_response; Slept 2;
      Sent (poll_request (PStr "http://host/op/1/")) pending_response; Slept 2;
      Sent (poll_request (PStr "http://host/op/1/")) success_response]).
Proof. vm_compute. reflexivity. Qed.

(** * Further properties of URL generation *)

Section gen_url_more.
Context `{Repr}.

Import _BaseAPI.

Lemma join_appends (url : string) (arg : PyVal) :
  exists suffix, join url arg = url +:+ suffix.
Proof.
  rewrite join_segment_text. destruct (segment_text arg) as [f|].
  - now exists (sep url +:+ f).
  - exists EmptyString. now rewrite append_empty_r.
Qed.

Lemma fold_join_appends (l : list PyVal) (url : string) :
  exists suffix, fold_left join l url = url +:+ suffix.
Proof.
  revert url. induction l as [|a l IH]; intros url; cbn [fold_left].
  - exists EmptyString. now rewrite append_empty_r.
  - destruct (join_appends url a) as [s1 ->]. destruct (IH (url +:+ s1)) as [s2 ->].
    exists (s1 +:+ s2). now rewrite append_assoc.
Qed.

Lemma paths_take_prefix (t : list (option string)) (args : list PyVal) (n : nat) :
  exists l, paths t args = paths t (take n args) ++ l.
Proof.
  revert args n. induction t as [|[x|] t IH]; intros args n; cbn [paths].
  - now exists [].
  - destruct (IH args n) as [l ->]. now exists l.
  - destruct args as [|a args]; [destruct n; now exists []|].
    destruct n as [|n]; cbn [take]; [now eexists|].
    destruct (IH args n) as [l ->]. now exists l.
Qed.

Lemma paths_app_literal (t : list (option string)) (x : string) (args : list PyVal) :
  placeholders t <= length args ->
  paths (t ++ [Some x]) args = paths t args ++ [PStr x].
Proof.
  revert args. induction t as [|[y|] t IH]; intros args Hk; cbn in *.
  - reflexivity.
  - now rewrite IH.
  - destruct args as [|a args]; cbn in *; [lia|]. rewrite IH; [reflexivity | lia].
Qed.

Lemma placeholders_app (t u : list (option string)) :
  placeholders (t ++ u) = placeholders t + placeholders u.
Proof. induction t as [|[y|] t IH]; cbn; lia. Qed.

Lemma endswith_with_sep (url : string) : endswith (url +:+ sep url) "/" = true.
Proof.
  unfold sep. destruct (endswith url "/") eqn:E.
  - now rewrite append_empty_r.
  - now rewrite endswith_slash_app.
Qed.

Lemma join_closing_literal (url x : string) :
  endswith x "/" = true -> x <> "//" ->
  endswith (join url (PStr x)) "/" = true.
Proof.
  intros Hx Hne. destruct x as [|c x]; [discriminate|].
  destruct (Ascii.eqb_spec c "/") as [->|Hc].
  - rewrite join_slashed. destruct (String.eqb_spec x "/") as [->|_]; [contradiction|].
    destruct x as [|d x].
    + rewrite append_empty_r. apply endswith_with_sep.
    + rewrite <- append_assoc, endswith_slash_app.
      now rewrite endswith_slash_cons in Hx.
  - rewrite join_plain.
    + now rewrite <- append_assoc, endswith_slash_app.
    + rewrite startswith_slash. now apply Ascii.eqb_neq.
Qed.

Lemma fold_join_base_slash (b : string) (l : list PyVal) :
  endswith b "/" = false ->
  Exists (fun a => segment_text a <> None) l ->
  fold_left join l (b +:+ "/") = fold_left join l b.
Proof.
  intros Hb. induction 1 as [a l Ha|a l Hl IH]; cbn [fold_left];
    rewrite !(join_segment_text _ a).
  - destruct (segment_text a) as [f|]; [|contradiction].
    unfold sep. rewrite Hb, endswith_slash_app. cbn [endswith String.eqb Ascii.eqb Bool.eqb orb].
    now rewrite !append_assoc.
  - destruct (segment_text a) as [f|]; [|exact IH].
    unfold sep. rewrite Hb, endswith_slash_app. cbn [endswith String.eqb Ascii.eqb Bool.eqb orb].
    now rewrite !append_assoc.
Qed.

Lemma fold_join_leading_slash (t : list (option string)) :
  forall (ss : list string) (url : string),
  Forall (fun s => startswith s "/" = false) ss ->
  fold_left join (paths t (map (fun s => PStr ("/" +:+ s)) ss)) url =
  fold_left join (paths t (map PStr ss)) url.
Proof.
  induction t as [|[x|] t IH]; intros ss url Hss; cbn [paths fold_left].
  - reflexivity.
  - now apply IH.
  - destruct Hss as [|s ss Hs Hss]; cbn [map fold_left]; [reflexivity|].
    change ("/" +:+ s) with (String "/" s).
    rewrite join_slashed, join_plain by assumption.
    destruct (String.eqb_spec s "/") as [->|_]; [discriminate Hs|].
    now apply IH.
Qed.

End gen_url_more.

(** X1.  URL generation only appends: the result starts with the base in
    use, which is the [baseurl] given when it is not empty and the
    class's [_baseurl] otherwise. *)
Theorem gen_url_keeps_base `{Repr} (t : list (option string)) (args : list PyVal) :
  (forall b, b <> EmptyString ->
     exists suffix, _BaseAPI._gen_url t args (Some b) = b +:+ suffix) /\
  (exists suffix, _BaseAPI._gen_url t args None = _BaseAPI._baseurl +:+ suffix) /\
  _BaseAPI._gen_url t args (Some EmptyString) = _BaseAPI._gen_url t args None.
Proof.
  split; [|split; [|reflexivity]].
  - intros b Hb. unfold _BaseAPI._gen_url.
    destruct (String.eqb_spec b EmptyString); [contradiction|].
    apply fold_join_appends.
  - apply fold_join_appends.
Qed.

Lemma gen_url_keeps_base_witness :
  exists suffix,
    _BaseAPI._gen_url PathDataAPI._api_uri [PInt 7] (Some "https://files.example/api/2") =
    "https://files.example/api/2" +:+ suffix.
Proof.
  destruct (gen_url_keeps_base PathDataAPI._api_uri [PInt 7]) as [Hb _].
  apply Hb. discriminate.
Defined.

(** X2.  More arguments only extend the URL: the URL for the first [n]
    arguments is a prefix of the URL for all of them. *)
Theorem gen_url_more_args_extend `{Repr} (t : list (option string))
    (args : list PyVal) (n : nat) (baseurl : option string) :
  exists suffix,
    _BaseAPI._gen_url t args baseurl =
    _BaseAPI._gen_url t (take n args) baseurl +:+ suffix.
Proof.
  unfold _BaseAPI._gen_url.
  destruct (paths_take_prefix t args n) as [l ->].
  rewrite fold_left_app. apply fold_join_appends.
Qed.

(** X3.  One leading slash on the arguments does not change the URL:
    for strings that do not start with a slash, giving each with a slash
    before it resolves to the same URL. *)
Theorem gen_url_leading_slash `{Repr} (t : list (option string))
    (ss : list string) (baseurl : option string) :
  Forall (fun s => startswith s "/" = false) ss ->
  _BaseAPI._gen_url t (map (fun s => PStr ("/" +:+ s)) ss) baseurl =
  _BaseAPI._gen_url t (map PStr ss) baseurl.
Proof. intros Hss. unfold _BaseAPI._gen_url. now apply fold_join_leading_slash. Qed.

Lemma gen_url_leading_slash_witness :
  _BaseAPI._gen_url PathOperAPI._api_uri [PStr "/move"; PStr "/a/b"] None =
  _BaseAPI._gen_url PathOperAPI._api_uri [PStr "move"; PStr "a/b"] None.
Proof.
  apply (gen_url_leading_slash PathOperAPI._api_uri ["move"; "a/b"] None).
  repeat constructor.
Defined.

(** X4.  A template whose last segment is a literal that ends with a
    slash (and is not [//]) gives a URL that ends with a slash, once the
    arguments fill every placeholder. *)
Theorem gen_url_trailing_slash `{Repr} (t : list (option string)) (x : string)
    (args : list PyVal) (baseurl : option string) :
  endswith x "/" = true -> x <> "//" ->
  placeholders t <= length args ->
  endswith (_BaseAPI._gen_url (t ++ [Some x]) args baseurl) "/" = true.
Proof.
  intros Hx Hne Hk. unfold _BaseAPI._gen_url.
  rewrite paths_app_literal, fold_left_app by assumption. cbn [fold_left].
  now apply join_closing_literal.
Qed.

(** The data endpoint, whose template ends with [data/]. *)
Lemma gen_url_trailing_slash_witness :
  endswith (_BaseAPI._gen_url PathDataAPI._api_uri [PInt 7] None) "/" = true.
Proof.
  apply (gen_url_trailing_slash [Some "path/"; None] "data/" [PInt 7] None).
  - reflexivity.
  - discriminate.
  - cbn. lia.
Defined.

(** X5.  A base given without its closing slash resolves like the base
    with it, provided the template contributes at least one segment that
    is appended (one that is not [/] once its leading slash is cut). *)
Theorem gen_url_base_slash `{Repr} (t : list (option string))
    (args : list PyVal) (b : string) :
  b <> EmptyString -> endswith b "/" = false ->
  Exists (fun a => segment_text a <> None) (_BaseAPI.paths t args) ->
  _BaseAPI._gen_url t args (Some (b +:+ "/")) = _BaseAPI._gen_url t args (Some b).
Proof.
  intros Hb He Hex. unfold _BaseAPI._gen_url.
  destruct (String.eqb_spec b EmptyString); [contradiction|].
  destruct (String.eqb_spec (b +:+ "/") EmptyString) as [E|_];
    [now destruct b|].
  now apply fold_join_base_slash.
Qed.

Lemma gen_url_base_slash_witness :
  _BaseAPI._gen_url RoleAPI._api_uri [PStr "admins"] (Some ("http://host/api/2" +:+ "/")) =
  _BaseAPI._gen_url RoleAPI._api_uri [PStr "admins"] (Some "http://host/api/2").
Proof.
  apply (gen_url_base_slash RoleAPI._api_uri [PStr "admins"] "http://host/api/2").
  - discriminate.
  - reflexivity.
  - apply Exists_cons_hd. discriminate.
Defined.

(** * Further properties of the poll loop *)

Section poll_cost.
Context `{Transport}.

(** How a run of the loop ends, and what it costs. *)
Lemma poll_loop_cost (n : nat) (url : PyVal) (ct : Z) :
  forall (resp : option Requests.Response) (w : World),
  exists evs res,
    PathOperAPI.poll_loop n url ct resp w = (res, add_events w evs) /\
    sent POST evs = [] /\
    sleeps evs = repeat ct (length (sleeps evs)) /\
    length (sleeps evs) <= length (sent GET evs) <= n /\
    match res with
    | Ok r' =>
        (length (sent GET evs) = n /\ length (sleeps evs) = n /\
         (resp = None \/ (exists r0, resp = Some r0 /\ keeps_polling r0) ->
          forall r, r' = Some r -> keeps_polling r)) \/
        (exists r, r' = Some r /\ ends_poll r /\
                   length (sleeps evs) + 1 = length (sent GET evs))
    | Raise e => length (sleeps evs) + 1 = length (sent GET evs)
    end.
Proof.
  induction n as [|n IH]; intros resp w.
  - exists [], (Ok resp). rewrite add_events_nil. cbn.
    split; [reflexivity|]. split; [reflexivity|]. split; [reflexivity|].
    split; [lia|]. left. split; [reflexivity|]. split; [reflexivity|].
    intros [->|(r0 & -> & Hr0)] r; [discriminate | now intros [= <-]].
  - cbn [PathOperAPI.poll_loop]. unfold bind at 1. rewrite session_get_run.
    fold (poll_request url).
    set (r := send (trace w) (poll_request url)).
    set (w1 := add_events w [Sent (poll_request url) r]).
    destruct (Requests.status_code r =? 200)%Z eqn:Es; cbn [negb].
    2:{ exists [Sent (poll_request url) r], (Ok (Some r)). apply Z.eqb_neq in Es.
        cbn. split; [reflexivity|]. split; [reflexivity|]. split; [reflexivity|].
        split; [lia|]. right. exists r. split; [reflexivity|]. split; [now left | reflexivity]. }
    apply Z.eqb_eq in Es.
    unfold bind at 1, lift at 1.
    destruct (PathOperAPI.result_status r) as [st|e] eqn:Est.
    2:{ exists [Sent (poll_request url) r], (Raise e).
        cbn. split; [reflexivity|]. split; [reflexivity|]. split; [reflexivity|].
        split; [lia | reflexivity]. }
    destruct (eq_str st "SUCCESS") eqn:Esucc.
    { exists [Sent (poll_request url) r], (Ok (Some r)).
      cbn. split; [reflexivity|]. split; [reflexivity|]. split; [reflexivity|].
      split; [lia|]. right. exists r. split; [reflexivity|].
      split; [right; now exists st | reflexivity]. }
    unfold bind at 1, time_sleep at 1.
    change (mkWorld (environ w1) (trace w1 ++ [Slept ct]) (files w1))
      with (add_events w1 [Slept ct]).
    assert (Hr : keeps_polling r) by (split; [assumption | now exists st]).
    destruct (IH (Some r) (add_events w1 [Slept ct]))
      as (evs & res & Erun & Hpost & Hsl & Hle & Hres).
    exists (Sent (poll_request url) r :: Slept ct :: evs), res.
    split; [rewrite Erun; unfold w1; now rewrite !add_events_app|].
    split; [exact Hpost|].
    split; [cbn; now rewrite <- Hsl|].
    split; [cbn; lia|].
    destruct res as [r'|e]; cbn.
    + destruct Hres as [(Hn & Hs & Hk)|(r1 & -> & He & Hc)].
      * left. split; [lia|]. split; [lia|]. intros _. apply Hk. right. now exists r.
      * right. exists r1. split; [reflexivity|]. split; [assumption | lia].
    + lia.
Qed.

Lemma poll_cost (url : PyVal) (checks ct : Z) (w : World) :
  exists evs res,
    PathOperAPI.poll url checks ct w = (res, add_events w evs) /\
    sent POST evs = [] /\
    sleeps evs = repeat ct (length (sleeps evs)) /\
    length (sleeps evs) <= length (sent GET evs) <= Z.to_nat checks /\
    match res with
    | Ok r =>
        (keeps_polling r /\ length (sent GET evs) = Z.to_nat checks /\
         length (sleeps evs) = Z.to_nat checks) \/
        (ends_poll r /\ length (sleeps evs) + 1 = length (sent GET evs))
    | Raise e =>
        length (sleeps evs) + 1 = length (sent GET evs) \/
        (e = UnboundLocalError "response" /\ evs = [])
    end.
Proof.
  destruct (poll_loop_cost (Z.to_nat checks) url ct None w)
    as (evs & res & E & Hpost & Hsl & Hle & Hres).
  unfold PathOperAPI.poll, bind. rewrite E.
  destruct res as [[r|]|e].
  - exists evs, (Ok r). split; [reflexivity|]. do 3 (split; [assumption|]).
    destruct Hres as [(Hn & Hs & Hk)|(r1 & [= <-] & He & Hc)].
    + left. split; [apply Hk; [now left | reflexivity] | now split].
    + right. now split.
  - exists evs, (Raise (UnboundLocalError "response")).
    split; [reflexivity|]. do 3 (split; [assumption|]).
    right. split; [reflexivity|].
    destruct (poll_loop_run (Z.to_nat checks) url ct None w)
      as (evs1 & res1 & E1 & Hev & _ & _ & Hlast & _).
    rewrite E in E1. injection E1 as <- Htr. apply app_inv_head in Htr. subst evs1.
    unfold last_response in Hlast.
    destruct evs as [|[rq rs|s|d c] evs]; [reflexivity | | |];
      [| |apply Forall_inv in Hev; destruct Hev as [[? [=]]|[=]]].
    + cbn in Hpost, Hlast. destruct rq as [[|] u d p0]; cbn in Hpost, Hlast;
        [|discriminate Hpost].
      rewrite last_cons in Hlast. destruct (last (sent GET evs)) as [[? ?]|]; discriminate.
    + cbn in Hle, Hsl, Hlast.
      destruct (sent GET evs) as [|x l]; [cbn in Hle; lia|].
      rewrite last_cons in Hlast. destruct (last l) as [[? ?]|], x; discriminate.
  - exists evs, (Raise e). split; [reflexivity|]. do 3 (split; [assumption|]).
    now left.
Qed.

End poll_cost.

(** X6.  When [poll] returns a response, either that response ends the
    poll (its status is not 200, or its body says SUCCESS) and there was a
    sleep between the reads only, or it is an answer that keeps the poll
    going, and then the budget is used up: exactly [checks] reads, each
    followed by a sleep, the last read included. *)
Theorem poll_gives_up_only_when_exhausted `{Transport} (url : PyVal)
    (checks ct : Z) (w w' : World) (r : Requests.Response) :
  PathOperAPI.poll url checks ct w = (Ok r, w') ->
  exists evs,
    w' = add_events w evs /\
    ((ends_poll r /\ length (sleeps evs) + 1 = length (sent GET evs)) \/
     (keeps_polling r /\ length (sent GET evs) = Z.to_nat checks /\
      length (sleeps evs) = Z.to_nat checks)).
Proof.
  intros E. destruct (poll_cost url checks ct w) as (evs & res & E' & _ & _ & _ & Hres).
  rewrite E in E'. injection E' as <- ->. exists evs. split; [reflexivity|].
  destruct Hres as [Hk|He]; [now right | now left].
Qed.

(** Five checks against a server that always answers "pending". *)
Lemma poll_gives_up_only_when_exhausted_witness :
  exists evs,
    snd (@PathOperAPI.poll always_pending (PStr "http://host/op/1/") 5 2 w0) =
      add_events w0 evs /\
    ((ends_poll pending_response /\ length (sleeps evs) + 1 = length (sent GET evs)) \/
     (keeps_polling pending_response /\ length (sent GET evs) = Z.to_nat 5 /\
      length (sleeps evs) = Z.to_nat 5)).
Proof.
  apply (@poll_gives_up_only_when_exhausted always_pending (PStr "http://host/op/1/")
           5 2 w0 _ pending_response).
  vm_compute. reflexivity.
Defined.

(** X7.  Whatever the server answers and however [poll] ends, it sends
    reads only, at most [checks] of them, sleeps [check_timeout] each time
    it sleeps, and never sleeps more often than it reads. *)
Theorem poll_sleep_budget `{Transport} (url : PyVal) (checks ct : Z) (w : World) :
  exists evs res,
    PathOperAPI.poll url checks ct w = (res, add_events w evs) /\
    sent POST evs = [] /\
    sleeps evs = repeat ct (length (sleeps evs)) /\
    length (sleeps evs) <= length (sent GET evs) <= Z.to_nat checks.
Proof.
  destruct (poll_cost url checks ct w) as (evs & res & E & Hp & Hs & Hle & _).
  now exists evs, res.
Qed.

(** X8.  [PathAPI.remove] is bounded: one POST, at most 5 reads, at most
    5 sleeps of 2 seconds each, whatever the server and the response
    processor do. *)
Theorem remove_cost `{Repr} `{Transport} `{Decorators} (path : PyVal) (w : World) :
  exists evs res,
    PathAPI.remove path w = (res, add_events w evs) /\
    length (sent POST evs) = 1 /\
    length (sent GET evs) <= 5 /\
    length (sleeps evs) <= 5 /\
    sleeps evs = repeat 2%Z (length (sleeps evs)).
Proof.
  unfold PathAPI.remove, PathOperAPI.remove, _BaseAPI._create.
  unfold bind at 1. unfold bind at 1.
  unfold session_post, session_send.
  set (rq := mkRequest POST _ _ _).
  set (w1 := mkWorld _ _ _). change w1 with (add_events w [Sent rq (send (trace w) rq)]).
  clear w1. set (w1 := add_events w _).
  unfold lift at 1.
  destruct (response_processor (send (trace w) rq)) as [r|e].
  2:{ eexists _, _. split; [reflexivity|]. cbn. split_and!; try lia; reflexivity. }
  destruct (Requests.status_code r =? 200)%Z.
  2:{ eexists _, _. split; [reflexivity|]. cbn. split_and!; try lia; reflexivity. }
  unfold bind at 1, lift at 1.
  destruct (getitem (Requests.json r) "url") as [url|e].
  2:{ eexists _, _. split; [reflexivity|]. cbn. split_and!; try lia; reflexivity. }
  destruct (poll_cost url 5 2 w1) as (evs & res & E & Hp & Hs & Hle & _).
  exists (Sent rq (send (trace w) rq) :: evs), res.
  split; [rewrite E; unfold w1; now rewrite add_events_app|].
  change (Z.to_nat 5) with 5 in Hle.
  cbn. rewrite Hp. split_and!; try (cbn; lia). exact Hs.
Qed.

(** * Further properties of download *)

Lemma str_of_int_nonempty (n : Z) : str_of_int n <> EmptyString.
Proof.
  unfold str_of_int, NilZero.string_of_int, NilZero.string_of_uint.
  destruct (Z.to_int n) as [d|d]; destruct d; discriminate.
Qed.

(** The URL of the data endpoint for an integer id. *)
Lemma data_url (H : Repr) (n : Z) :
  _BaseAPI._gen_url PathDataAPI._api_uri [PInt n] None =
  "http://localhost:8000/api/2/path/" +:+ str_of_int n +:+ "/data/".
Proof.
  unfold _BaseAPI._gen_url, PathDataAPI._api_uri. cbn [_BaseAPI.paths fold_left].
  rewrite (join_plain _ "path/"), join_int, (join_plain _ "data/") by reflexivity.
  change (sep _BaseAPI._baseurl) with EmptyString.
  change (_BaseAPI._baseurl +:+ EmptyString +:+ "path/")
    with "http://localhost:8000/api/2/path/".
  change (sep "http://localhost:8000/api/2/path/") with EmptyString.
  rewrite append_nil, sep_prefix by apply str_of_int_nonempty.
  unfold sep. rewrite no_slash_endswith by apply no_slash_str_of_int.
  now rewrite append_assoc.
Qed.

(** X9.  When the tree lookup fails, because the response processor
    raises on its answer or because the body it hands back has no [id],
    [download] raises that exception after this one request: no data
    request is sent and no file is opened. *)
Theorem download_tree_lookup_fails `{Repr} `{Transport} `{Decorators} `{Disk}
    (dst : string) (src : PyVal) (w : World) (e : Exn) :
  let answer := send (trace w) (tree_request src) in
  response_processor answer = Raise e \/
  (exists tree, response_processor answer = Ok tree /\
                getitem (Requests.json tree) "id" = Raise e) ->
  PathAPI.download dst src w =
  (Raise e, add_events w [Sent (tree_request src) answer]).
Proof.
  intros answer Hfail.
  unfold PathAPI.download, PathTreeAPI.read, _BaseAPI._read.
  unfold bind at 1. unfold bind at 1. rewrite session_get_run.
  fold (tree_request src). fold answer. unfold lift at 1.
  destruct Hfail as [->|(tree & -> & Hid)]; [reflexivity|].
  unfold bind at 1, lift at 1. now rewrite Hid.
Qed.

(** The tree lookup is answered with the empty JSON object. *)
Lemma download_tree_lookup_fails_witness :
  @PathAPI.download bracket_repr empty_object spec_response_processor sound_disk
    "/tmp/hello.txt" (PStr "/docs/hello.txt") w0 =
  (Raise (KeyError "id"),
   add_events w0 [Sent (tree_request (PStr "/docs/hello.txt"))
                    (json_response 200 (PDict []))]).
Proof.
  apply (@download_tree_lookup_fails bracket_repr empty_object spec_response_processor
           sound_disk "/tmp/hello.txt" (PStr "/docs/hello.txt") w0 (KeyError "id")).
  right. exists (json_response 200 (PDict [])). split; reflexivity.
Defined.

(** X10.  Whatever the outcome, [download] sends no POST and does not
    sleep, makes one or two reads, writes to no file but [dst], and leaves
    the environment and every file other than [dst] as they were. *)
Theorem download_effects `{Repr} `{Transport} `{Decorators} `{Disk}
    (dst : string) (src : PyVal) (w : World) :
  exists evs res fs,
    PathAPI.download dst src w = (res, mkWorld (environ w) (trace w ++ evs) fs) /\
    sent POST evs = [] /\ sleeps evs = [] /\
    1 <= length (sent GET evs) <= 2 /\
    (forall p, p <> dst -> written p evs = [] /\ fs !! p = files w !! p).
Proof.
  pose proof (download_run dst src w) as Hrun. cbv zeta in Hrun.
  set (a1 := send (trace w) (tree_request src)) in Hrun.
  destruct (response_processor a1) as [tree|e].
  2:{ exists [Sent (tree_request src) a1], (Raise e), (files w).
      split; [exact Hrun|]. cbn. split; [reflexivity|]. split; [reflexivity|].
      split; [lia|]. intros p Hp. now split. }
  destruct (getitem (Requests.json tree) "id") as [id|e].
  2:{ exists [Sent (tree_request src) a1], (Raise e), (files w).
      split; [exact Hrun|]. cbn. split; [reflexivity|]. split; [reflexivity|].
      split; [lia|]. intros p Hp. now split. }
  set (a2 := send _ (data_request id)) in Hrun.
  destruct (response_processor a2) as [r|e].
  2:{ exists [Sent (tree_request src) a1; Sent (data_request id) a2], (Raise e), (files w).
      split; [exact Hrun|]. cbn. split; [reflexivity|]. split; [reflexivity|].
      split; [lia|]. intros p Hp. now split. }
  destruct (Requests.status_code r =? 200)%Z.
  2:{ exists [Sent (tree_request src) a1; Sent (data_request id) a2], (Ok r), (files w).
      split; [exact Hrun|]. cbn. split; [reflexivity|]. split; [reflexivity|].
      split; [lia|]. intros p Hp. now split. }
  destruct (can_open _ dst).
  2:{ exists [Sent (tree_request src) a1; Sent (data_request id) a2],
        (Raise (IOError dst)), (files w).
      split; [exact Hrun|]. cbn. split; [reflexivity|]. split; [reflexivity|].
      split; [lia|]. intros p Hp. now split. }
  destruct Hrun as (done & rest & fs & _ & _ & Ho & Hrun).
  assert (Hev : forall res,
    PathAPI.download dst src w =
      (res, mkWorld (environ w)
              (trace w ++ [Sent (tree_request src) a1; Sent (data_request id) a2] ++
               map (Wrote dst) done) fs) ->
    exists evs res fs,
      PathAPI.download dst src w = (res, mkWorld (environ w) (trace w ++ evs) fs) /\
      sent POST evs = [] /\ sleeps evs = [] /\
      1 <= length (sent GET evs) <= 2 /\
      (forall p, p <> dst -> written p evs = [] /\ fs !! p = files w !! p)).
  { intros res E.
    exists ([Sent (tree_request src) a1; Sent (data_request id) a2] ++
            map (Wrote dst) done), res, fs.
    split; [exact E|].
    rewrite !sent_app, !sent_writes. cbn [app sleeps]. rewrite sleeps_writes.
    split; [reflexivity|]. split; [reflexivity|]. split; [cbn; lia|].
    intros p Hp. split; [|now apply Ho]. cbn [written]. now apply written_writes_other. }
  destruct Hrun as [[_ E] | (c & rest' & _ & _ & E)]; exact (Hev _ E).
Qed.

(** X11.  When the tree lookup gives an integer id [n], [download] sends
    exactly two requests: the read of the tree URL of [src], then a read
    of [.../path/n/data/].  What follows them in the trace are its writes
    to [dst]. *)
Theorem download_data_request `{Repr} `{Transport} `{Decorators} `{Disk}
    (dst : string) (src : PyVal) (w : World) (tree : Requests.Response) (n : Z) :
  let answer := send (trace w) (tree_request src) in
  response_processor answer = Ok tree ->
  getitem (Requests.json tree) "id" = Ok (PInt n) ->
  exists data_answer chunks,
    trace (snd (PathAPI.download dst src w)) =
    trace w ++
      [Sent (tree_request src) answer;
       Sent (mkRequest GET
               (PStr ("http://localhost:8000/api/2/path/" +:+ str_of_int n +:+ "/data/"))
               PNone PNone) data_answer] ++
      map (Wrote dst) chunks.
Proof.
  intros answer Htree Hid.
  pose proof (download_run dst src w) as Hrun. cbv zeta in Hrun.
  fold answer in Hrun. rewrite Htree, Hid in Hrun.
  unfold data_request in Hrun. rewrite data_url in Hrun.
  set (rq2 := mkRequest GET _ _ _) in *.
  set (a2 := send _ rq2) in Hrun.
  destruct (response_processor a2) as [r|e].
  2:{ exists a2, []. now rewrite Hrun. }
  destruct (Requests.status_code r =? 200)%Z.
  2:{ exists a2, []. now rewrite Hrun. }
  destruct (can_open _ dst).
  2:{ exists a2, []. now rewrite Hrun. }
  destruct Hrun as (done & rest & fs & _ & _ & _ &
                    [[_ ->] | (c & rest' & _ & _ & ->)]); now exists a2, done.
Qed.

(** The file server answers the tree lookup with the id 7. *)
Lemma download_data_request_witness :
  exists data_answer chunks,
    trace (snd (@PathAPI.download bracket_repr file_server spec_response_processor
                  sound_disk "/tmp/hello.txt" (PStr "/docs/hello.txt") w0)) =
    trace w0 ++
      [Sent (tree_request (PStr "/docs/hello.txt"))
            (json_response 200 (PDict [("id", PInt 7)]));
       Sent (mkRequest GET
               (PStr ("http://localhost:8000/api/2/path/" +:+ str_of_int 7 +:+ "/data/"))
               PNone PNone) data_answer] ++
      map (Wrote "/tmp/hello.txt") chunks.
Proof.
  apply (@download_data_request bracket_repr file_server spec_response_processor
           sound_disk "/tmp/hello.txt" (PStr "/docs/hello.txt") w0
           (json_response 200 (PDict [("id", PInt 7)])) 7); reflexivity.
Defined.

(** * Further properties of [ResponseError] *)

(** X12.  For a body that decodes to a JSON object, building the
    [ResponseError] always succeeds: the error carries the response and
    its status code, and its detail is the object's [detail] field when
    there is one and the fallback message otherwise. *)
Theorem response_error_object_body (r : Requests.Response)
    (d : list (string * PyVal)) :
  Requests.decoded r = Some (PDict d) ->
  ResponseError.__init__ r =
  Ok (mkResponseError r (Requests.status_code r)
        (match assoc "detail" d with
         | Some v => v
         | None => PStr ResponseError.default_detail
         end)).
Proof.
  intros Hd. unfold ResponseError.__init__, json_call. rewrite Hd.
  cbn [result_bind truthy contains getitem].
  destruct d as [|kv d]; [reflexivity|]. cbn [negb].
  destruct (assoc "detail" (kv :: d)); reflexivity.
Qed.

Lemma response_error_object_body_witness :
  ResponseError.__init__ (json_response 404 (PDict [("detail", PStr "Not found")])) =
  Ok (mkResponseError (json_response 404 (PDict [("detail", PStr "Not found")])) 404
        (PStr "Not found")).
Proof.
  apply (response_error_object_body
           (json_response 404 (PDict [("detail", PStr "Not found")]))
           [("detail", PStr "Not found")]).
  reflexivity.
Defined.

(** X13.  Some bodies that are valid JSON make the constructor raise
    [TypeError] instead of falling back: a number other than 0 or [true],
    whose membership test fails; and a string that holds the word
    [detail], or a list that holds the string [detail], whose membership
    test passes and whose lookup of ['detail'] then fails. *)
Theorem response_error_type_error (r : Requests.Response) (json : PyVal) :
  Requests.decoded r = Some json ->
  (exists n, json = PInt n /\ n <> 0%Z) \/
  json = PBool true \/
  (exists t, json = PStr t /\ str_contains t "detail" = true) \/
  (exists l, json = PList l /\ existsb (fun x => eq_str x "detail") l = true) ->
  ResponseError.__init__ r = Raise TypeError.
Proof.
  intros Hd Hj. unfold ResponseError.__init__, json_call. rewrite Hd.
  cbn [result_bind].
  destruct Hj as [(n & -> & Hn)|[->|[(t & -> & Ht)|(l & -> & Hl)]]].
  - cbn. apply Z.eqb_neq in Hn. now rewrite Hn.
  - reflexivity.
  - cbn [truthy]. destruct (String.eqb_spec t EmptyString) as [->|_]; [discriminate Ht|].
    cbn. now rewrite Ht.
  - cbn [truthy]. destruct l as [|x l]; [discriminate Hl|]. cbn [negb contains result_bind].
    now rewrite Hl.
Qed.

(** An error page whose JSON body is a plain message. *)
Lemma response_error_type_error_witness :
  ResponseError.__init__ (json_response 500 (PStr "no detail available")) =
  Raise TypeError.
Proof.
  apply (response_error_type_error (json_response 500 (PStr "no detail available"))
           (PStr "no detail available")); [reflexivity|].
  right. right. left. exists "no detail available". split; reflexivity.
Defined.

(** X14.  The text of an error built from a JSON object body: the
    status code, then the [detail] string of the body when every
    character of it is ASCII, or the fallback message when the body has
    no [detail]; when the [detail] string holds a non-ASCII character,
    asking for the text raises [UnicodeEncodeError]. *)
Theorem response_error_str `{Repr} (r : Requests.Response)
    (d : list (string * PyVal)) :
  Requests.decoded r = Some (PDict d) ->
  exists e,
    ResponseError.__init__ r = Ok e /\
    (forall s, assoc "detail" d = Some (PStr s) -> is_ascii s = true ->
       ResponseError.__str__ e =
       Ok ("Response " +:+ str_of_int (Requests.status_code r) +:+ ": " +:+ s)) /\
    (forall s, assoc "detail" d = Some (PStr s) -> is_ascii s = false ->
       ResponseError.__str__ e = Raise UnicodeEncodeError) /\
    (assoc "detail" d = None ->
       ResponseError.__str__ e =
       Ok ("Response " +:+ str_of_int (Requests.status_code r) +:+
           ": Server error; check response for errors")).
Proof.
  intros Hd. unfold ResponseError.__init__, json_call. rewrite Hd.
  cbn [result_bind truthy contains getitem].
  assert (Hsome : forall v : PyVal,
    (forall s, Some v = Some (PStr s) -> is_ascii s = true ->
       ResponseError.__str__ (mkResponseError r (Requests.status_code r) v) =
       Ok ("Response " +:+ str_of_int (Requests.status_code r) +:+ ": " +:+ s)) /\
    (forall s, Some v = Some (PStr s) -> is_ascii s = false ->
       ResponseError.__str__ (mkResponseError r (Requests.status_code r) v) =
       Raise UnicodeEncodeError)).
  { intros v. split; intros s [= ->] Hs; unfold ResponseError.__str__;
      cbn [errors.detail errors.status_code]; rewrite Hs; reflexivity. }
  destruct d as [|kv d].
  - eexists. split; [reflexivity|].
    split; [discriminate|]. split; [discriminate | reflexivity].
  - cbn [negb]. destruct (assoc "detail" (kv :: d)) as [v|].
    + eexists. split; [reflexivity|]. destruct (Hsome v) as [H1 H2].
      split; [exact H1|]. split; [exact H2 | discriminate].
    + eexists. split; [reflexivity|].
      split; [discriminate|]. split; [discriminate | reflexivity].
Qed.

(** A 404 whose detail is plain text, and the text of its error. *)
Lemma response_error_str_witness :
  exists e,
    ResponseError.__init__ (json_response 404 (PDict [("detail", PStr "Not found")])) = Ok e /\
    ResponseError.__str__ e = Ok "Response 404: Not found".
Proof.
  destruct (@response_error_str bracket_repr
              (json_response 404 (PDict [("detail", PStr "Not found")]))
              [("detail", PStr "Not found")]) as (e & He & Hs & _); [reflexivity|].
  exists e. split; [exact He|]. apply (Hs "Not found"); reflexivity.
Defined.

(** * Properties of the constructors and of the facade *)

Lemma base_init_world (api_key api_pass : PyVal) (session : option Session)
    (w w' : World) (res : result Session) :
  _BaseAPI.__init__ api_key api_pass session w = (res, w') -> w' = w.
Proof.
  unfold _BaseAPI.__init__. destruct session as [s|]; [now intros [= _ <-]|].
  unfold bind, _BaseAPI._get_auth, except_KeyError, bind, os_environ, raise, ret.
  destruct (is_none api_key && is_none api_pass); [|now intros [= _ <-]].
  destruct (environ w !! "SMARTFILE_API_KEY"); [|now intros [= _ <-]].
  destruct (environ w !! "SMARTFILE_API_PASS"); now intros [= _ <-].
Qed.



(** X16.  A [PathAPI] cannot be built with the session as its third
    positional argument: the constructors of its endpoints are then
    called with that positional argument and with [session=] by keyword.
    With a session object in that place the call raises [TypeError]; the
    world is left as it was. *)
Theorem path_api_positional_session (api_key api_pass : PyVal)
    (s : option Session) (w : World) :
  exists e,
    PathAPI.__init__ api_key api_pass (PathAPI.Positional s) w = (Raise e, w) /\
    (s <> None -> e = TypeError).
Proof.
  unfold PathAPI.__init__. unfold bind at 1.
  destruct (_BaseAPI.__init__ api_key api_pass
              (PathAPI.session_value (PathAPI.Positional s)) w) as [[s1|e] w1] eqn:E.
  - apply base_init_world in E as ->. exists TypeError. now split.
  - pose proof (base_init_world _ _ _ _ _ _ E) as ->. exists e. split; [reflexivity|].
    destruct s as [s|]; [discriminate E | contradiction].
Qed.



(** * The root of the tree *)

Lemma paths_app_placeholder (t : list (option string)) (args : list PyVal) (a : PyVal) :
  placeholders t = length args ->
  _BaseAPI.paths (t ++ [None]) (args ++ [a]) = _BaseAPI.paths t args ++ [a].
Proof.
  revert args. induction t as [|[y|] t IH]; intros args Hk; cbn in *.
  - now destruct args.
  - now rewrite IH.
  - destruct args as [|b args]; cbn in *; [lia|]. rewrite IH; [reflexivity | lia].
Qed.

(** X18.  An argument that is just [/] adds nothing to a URL that
    already ends with a slash: after a template whose placeholders are
    all filled, one more placeholder filled with [/] gives the same URL.
    This is how the default path [/] of [PathTreeAPI.read] addresses the
    listing URL itself. *)
Theorem gen_url_slash_argument `{Repr} (t : list (option string))
    (args : list PyVal) (baseurl : option string) :
  placeholders t = length args ->
  endswith (_BaseAPI._gen_url t args baseurl) "/" = true ->
  _BaseAPI._gen_url (t ++ [None]) (args ++ [PStr "/"]) baseurl =
  _BaseAPI._gen_url t args baseurl.
Proof.
  intros Hk He. unfold _BaseAPI._gen_url in *.
  rewrite paths_app_placeholder, fold_left_app by assumption. cbn [fold_left].
  change (PStr "/") with (PStr (String "/" EmptyString)).
  rewrite join_slashed. cbn [String.eqb]. unfold sep. rewrite He.
  now rewrite !append_empty_r.
Qed.

Lemma gen_url_slash_argument_witness :
  _BaseAPI._gen_url PathTreeAPI._api_uri [PStr "/"] None =
  _BaseAPI._gen_url [Some "path/tree/"] [] None.
Proof.
  apply (gen_url_slash_argument [Some "path/tree/"] [] None); reflexivity.
Defined.
